(** * Databases-Asajad-Hussein: the SQLAlchemy notebooks, embedded and checked

    The repository is three Jupyter notebooks that drive SQLAlchemy against
    a SQL Server: [SQLAlchemyDemo.ipynb] (raw SQL, the injection
    demonstration and its parameterized fix), a second demo notebook
    (metadata, inserts, select builders, [result.keys()]) and
    [AsajadHusseinAbdulKadhom.ipynb] (ORM classes and [search_books]).

    The embedding has two layers, kept apart on purpose.

    - The notebook code: string building, [print], [try]/[except Exception],
      [with engine.connect() as conn], [for] loops.  These are translated
      cell by cell into a small state-and-exception monad [Py].
    - The collaborators the notebooks call but do not contain (SQLAlchemy,
      the ODBC driver, the SQL Server): an interface [Transport] that the
      cells take as a parameter.  The properties of the cells are stated
      for every transport.  Two pieces of the collaborators are written
      out, neither a translation of code: [Library], the check of bound
      parameters that SQLAlchemy makes before it calls the driver, and
      [Sql], a small stand-in for the server (a tokenizer and evaluator for
      the statement shape [select * from T where C like E]) that gives the
      examples a transport to run on and reproduces the outputs the
      notebooks recorded. *)

From Stdlib Require Import Ascii.
From stdpp Require Import gmap strings list pretty.

(** ** Python strings *)

Module PyStr.

(** A Python string is kept as its UTF-8 encoding, one [ascii] for each
    byte.  A character of the string is then a byte that is not a
    continuation byte (10xxxxxx): [len] counts those. *)

Definition nl : string := String "010"%char EmptyString.

Definition is_upper (c : ascii) : bool :=
  let n := nat_of_ascii c in (65 <=? n) && (n <=? 90).

Definition is_lower (c : ascii) : bool :=
  let n := nat_of_ascii c in (97 <=? n) && (n <=? 122).

Definition is_digit (c : ascii) : bool :=
  let n := nat_of_ascii c in (48 <=? n) && (n <=? 57).

Definition upper_char (c : ascii) : ascii :=
  if is_lower c then ascii_of_nat (nat_of_ascii c - 32) else c.

Definition lower_char (c : ascii) : ascii :=
  if is_upper c then ascii_of_nat (nat_of_ascii c + 32) else c.

Fixpoint smap (f : ascii -> ascii) (s : string) : string :=
  match s with
  | EmptyString => EmptyString
  | String c r => String (f c) (smap f r)
  end.

(** [str.upper()], [str.lower()] on strings of ASCII characters: the
    letters a-z and A-Z change, every other byte stays.  Python also folds
    letters outside ASCII; a statement that depends on the value of
    [upper] says that its argument [is_ascii]. *)
Definition upper : string -> string := smap upper_char.
Definition lower : string -> string := smap lower_char.

Definition is_continuation (c : ascii) : bool :=
  let n := nat_of_ascii c in (128 <=? n) && (n <=? 191).

(** [len(s)]: the number of characters *)
Fixpoint len (s : string) : nat :=
  match s with
  | EmptyString => 0
  | String c r => (if is_continuation c then 0 else 1) + len r
  end.

Fixpoint is_ascii (s : string) : bool :=
  match s with
  | EmptyString => true
  | String c r => (nat_of_ascii c <? 128) && is_ascii r
  end.

Fixpoint spaces (n : nat) : string :=
  match n with
  | O => EmptyString
  | S k => String " "%char (spaces k)
  end.

(** [s.ljust(w)]: pad on the right with blanks up to [w] characters; a
    string that has [w] characters or more comes back unchanged. *)
Definition ljust (w : nat) (s : string) : string :=
  s +:+ spaces (w - len s).

End PyStr.

(** ** Values, result sets, exceptions *)

(** A scalar as it travels between Python and the database. *)
Inductive value : Type :=
| VStr (s : string)
| VInt (z : Z)
| VNull.

#[global] Instance value_eq_dec : EqDecision value.
Proof. solve_decision. Defined.

(** The dictionary passed as second argument of [Connection.execute]. *)
Abbreviation BindingMap := (gmap string value).

(** What [Connection.execute] hands back: [result.keys()] and the rows. *)
Record ResultSet : Type := mkResultSet {
  rs_keys : list string;
  rs_rows : list (list value)
}.

(** A raised Python exception: its class name, whether that class derives
    from [Exception] (as opposed to deriving from [BaseException] only, like
    [KeyboardInterrupt] and [SystemExit]), and [str(e)]. *)
Record exn : Type := mkExn {
  exn_class : string;
  exn_is_Exception : bool;
  exn_str : string
}.

Inductive outcome (A : Type) : Type :=
| Returned (a : A)
| Raised (e : exn).
Arguments Returned {A} a.
Arguments Raised {A} e.

(** ** The interpreter state and the [Py] monad *)

(** One write to standard output.  [print] of a string writes text; [print]
    of [result.fetchall()] writes the [repr] of a list of rows, which is
    kept as the rows themselves. *)
Inductive printed : Type :=
| Text (s : string)
| Repr (rows : list (list value)).

(** What a cell can change: standard output, the connections checked out
    and given back so far, and the requests sent through
    [Connection.execute] (statement text and bindings, as two fields). *)
Record world : Type := mkWorld {
  stdout : list printed;
  acquired : nat;
  released : nat;
  wire : list (string * BindingMap)
}.

Definition world0 : world := mkWorld [] 0 0 [].

Definition Py (A : Type) : Type := world -> outcome A * world.

Module Py.

Definition ret {A} (a : A) : Py A := fun w => (Returned a, w).

Definition raise {A} (e : exn) : Py A := fun w => (Raised e, w).

Definition seq {A B} (m : Py A) (k : A -> Py B) : Py B :=
  fun w =>
    match m w with
    | (Returned a, w') => k a w'
    | (Raised e, w') => (Raised e, w')
    end.

(** The result of a call into the library: a value or an exception. *)
Definition call {A} (o : outcome A) : Py A := fun w => (o, w).

Definition write (p : printed) : Py unit :=
  fun w => (Returned tt,
            mkWorld (stdout w ++ [p]) (acquired w) (released w) (wire w)).

(** [print(s, end=e)] and [print(s)] *)
Definition print_end (s e : string) : Py unit := write (Text (s +:+ e)).
Definition print (s : string) : Py unit := print_end s PyStr.nl.

(** [print(rows)] for a list of rows *)
Definition print_rows (rows : list (list value)) : Py unit :=
  write (Repr rows).

(** [for x in xs: body x] *)
Fixpoint for_each {A} (xs : list A) (body : A -> Py unit) : Py unit :=
  match xs with
  | [] => ret tt
  | x :: r => seq (body x) (fun _ => for_each r body)
  end.

(** [try: body  except Exception as e: handler e].  Only exceptions whose
    class derives from [Exception] are handed to the handler. *)
Definition try_except_Exception {A} (body : Py A) (handler : exn -> Py A)
  : Py A :=
  fun w =>
    match body w with
    | (Raised e, w') =>
        if exn_is_Exception e then handler e w' else (Raised e, w')
    | r => r
    end.

End Py.

Declare Scope py_scope.
Delimit Scope py_scope with py.
Notation "'let!' x := m 'in' k" := (Py.seq m (fun x => k))
  (at level 10, x name, m at level 200, k at level 200) : py_scope.
Notation "m >> k" := (Py.seq m (fun _ => k))
  (at level 65, right associativity) : py_scope.
Open Scope py_scope.

(** ** The library boundary *)

(** Everything that the notebooks obtain from SQLAlchemy and the server:
    [create_engine(url)], [engine.connect()] and
    [Connection.execute(statement, parameters)].  Each either returns or
    raises.  The cells below are written against this interface and never
    look inside it. *)
Record Transport : Type := mkTransport {
  tr_create_engine : outcome unit;
  tr_connect : outcome unit;
  tr_execute : string -> BindingMap -> outcome ResultSet
}.

(** ** SQLAlchemy's check of bound parameters *)

Module Library.

(** [conn.execute(text(T), B)] does not pass [T] and [B] on as they come.
    [text()] reads bind parameter names in [T].  At execution every name
    read needs a value in [B]; when one has none, the library raises
    [StatementError] and the driver is not called.  Entries of [B] under
    other names are not used.  This is the behaviour that SQLAlchemy
    documents for [text()] and [Connection.execute]; no notebook contains
    code for it. *)

(** The error for a name without a value.  Its message begins with this
    line; the library appends the statement and a link. *)
Definition statement_error (name : string) : exn :=
  mkExn "StatementError" true
    ("(sqlalchemy.exc.InvalidRequestError) A value is required for bind parameter '"
     +:+ name +:+ "'").

(** The first of the names that has no value. *)
Definition missing (names : list string) (B : BindingMap) : option string :=
  find (fun n => bool_decide (B !! n = None)) names.

(** The entries that are passed on. *)
Definition used (names : list string) (B : BindingMap) : BindingMap :=
  filter (fun kv => kv.1 ∈ names) B.

(** The check, for a reading [names] of the template and a [driver] that
    takes the statement and the values of its parameters. *)
Definition checked (names : string -> list string)
    (driver : string -> BindingMap -> outcome ResultSet)
    (T : string) (B : BindingMap) : outcome ResultSet :=
  match missing (names T) B with
  | Some n => Raised (statement_error n)
  | None => driver T (used (names T) B)
  end.

Definition sqlalchemy (names : string -> list string)
    (driver : string -> BindingMap -> outcome ResultSet)
    (connect : outcome unit) : Transport :=
  mkTransport (Returned tt) connect (checked names driver).

(** How [text()] reads names: a colon that does not come after a word
    character, another colon or a backslash, followed by the longest run of
    word characters.  Quotes and comments play no part: a colon and a name
    inside a string literal are read as a parameter too.  This follows the
    library for templates of ASCII characters without backslash in which no
    name is directly followed by a colon. *)
Definition is_word_char (c : ascii) : bool :=
  PyStr.is_upper c || PyStr.is_lower c || PyStr.is_digit c || Ascii.eqb c "_".

Definition is_backslash (c : ascii) : bool := nat_of_ascii c =? 92.

Definition flush_name (cur : option string) : list string :=
  match cur with
  | Some (String c r) => [String c r]
  | _ => []
  end.

Fixpoint scan (blocked : bool) (cur : option string) (s : string)
  : list string :=
  match s with
  | EmptyString => flush_name cur
  | String c r =>
      match cur with
      | Some acc =>
          if is_word_char c
          then scan true (Some (acc +:+ String c EmptyString)) r
          else flush_name cur
               ++ scan (Ascii.eqb c ":" || is_backslash c) None r
      | None =>
          if Ascii.eqb c ":"
          then scan true (if blocked then None else Some EmptyString) r
          else scan (is_word_char c || is_backslash c) None r
      end
  end.

Definition bind_names (T : string) : list string := scan false None T.

End Library.

(** ** A stand-in for the server *)

(** What the driver and the server make of a statement and the values of
    its parameters, for one statement shape.  It is not derived from any
    code and is used for examples only.  Letter case is folded for the
    letters A-Z, a LIKE underscore stands for one byte, and bracket classes
    in patterns are not interpreted.  The driver receives a question mark
    for each name that the library has read and the values in their order;
    here the names stay in the text, and a text in which the library has
    read a name that is no parameter for the server (a name inside a
    string literal or a comment) is refused for its number of parameter
    markers, as the driver refuses it. *)

Module Sql.

(** *** LIKE *)

(** [like_match p s]: the SQL predicate [s LIKE p] on strings, with [%]
    for any run of bytes (also none) and [_] for exactly one byte, which
    is one character in ASCII text.  The bracket classes of T-SQL are not
    modelled. *)
Fixpoint like_match (p s : string) : bool :=
  match p with
  | EmptyString =>
      match s with EmptyString => true | String _ _ => false end
  | String c p' =>
      if Ascii.eqb c "%" then
        (fix star (t : string) : bool :=
           like_match p' t ||
           match t with
           | EmptyString => false
           | String _ t' => star t'
           end) s
      else if Ascii.eqb c "_" then
        match s with
        | EmptyString => false
        | String _ s' => like_match p' s'
        end
      else
        match s with
        | EmptyString => false
        | String d s' => Ascii.eqb c d && like_match p' s'
        end
  end.

(** LIKE as the notebooks meet it: letter case is ignored.  The search for
    [stock] in the airport cell returns [Stockholm]; SQLAlchemy's [ilike]
    is [lower(a) LIKE lower(b)]. *)
Definition ilike_match (p s : string) : bool :=
  like_match (PyStr.lower p) (PyStr.lower s).

(** [v LIKE p] on nullable values: NULL on either side selects nothing. *)
Definition like_value (p v : value) : bool :=
  match p, v with
  | VStr p, VStr s => ilike_match p s
  | _, _ => false
  end.

(** *** Tokens *)

Inductive token : Type :=
| TWord (s : string)       (* keyword or identifier, also [bracketed] *)
| TLit (s : string)        (* 'string literal', quotes removed *)
| TParam (name : string)   (* :name *)
| TSym (c : ascii)         (* any other visible character *)
| TSemi                    (* ; *)
| TBad.                    (* literal or bracket left open *)

#[global] Instance token_eq_dec : EqDecision token.
Proof. solve_decision. Defined.

Inductive mode : Type :=
| Code
| Dash                     (* one - seen *)
| Comment                  (* after --, up to the end of the line *)
| Word (acc : string)
| Param (acc : string)
| Lit (acc : string)       (* inside '...' *)
| LitQ (acc : string)      (* inside '...', a quote just seen *)
| Bracket (acc : string).  (* inside [...] *)

Definition is_space (c : ascii) : bool :=
  let n := nat_of_ascii c in (n =? 32) || (n =? 9) || (n =? 10) || (n =? 13).

Definition is_word_char (c : ascii) : bool := Library.is_word_char c.

Definition snoc (s : string) (c : ascii) : string :=
  s +:+ String c EmptyString.

(** One character read in [Code] mode. *)
Definition step_code (c : ascii) : list token * mode :=
  if is_space c then ([], Code)
  else if Ascii.eqb c "'" then ([], Lit EmptyString)
  else if Ascii.eqb c ":" then ([], Param EmptyString)
  else if Ascii.eqb c "[" then ([], Bracket EmptyString)
  else if Ascii.eqb c ";" then ([TSemi], Code)
  else if Ascii.eqb c "-" then ([], Dash)
  else if is_word_char c then ([], Word (String c EmptyString))
  else ([TSym c], Code).

Definition emit (ts : list token) (r : list token * mode)
  : list token * mode :=
  (ts ++ r.1, r.2).

Definition step (m : mode) (c : ascii) : list token * mode :=
  match m with
  | Code => step_code c
  | Dash =>
      if Ascii.eqb c "-" then ([], Comment)
      else emit [TSym "-"] (step_code c)
  | Comment =>
      if Ascii.eqb c "010" then ([], Code) else ([], Comment)
  | Word acc =>
      if is_word_char c then ([], Word (snoc acc c))
      else emit [TWord acc] (step_code c)
  | Param acc =>
      if is_word_char c then ([], Param (snoc acc c))
      else emit [TParam acc] (step_code c)
  | Lit acc =>
      if Ascii.eqb c "'" then ([], LitQ acc) else ([], Lit (snoc acc c))
  | LitQ acc =>
      if Ascii.eqb c "'" then ([], Lit (snoc acc "'"))
      else emit [TLit acc] (step_code c)
  | Bracket acc =>
      if Ascii.eqb c "]" then ([TWord acc], Code)
      else ([], Bracket (snoc acc c))
  end.

Definition flush (m : mode) : list token :=
  match m with
  | Code | Comment => []
  | Dash => [TSym "-"]
  | Word acc => [TWord acc]
  | Param acc => [TParam acc]
  | LitQ acc => [TLit acc]
  | Lit _ | Bracket _ => [TBad]
  end.

Fixpoint lex (m : mode) (s : string) : list token :=
  match s with
  | EmptyString => flush m
  | String c r => let '(ts, m') := step m c in ts ++ lex m' r
  end.

Definition tokens (text : string) : list token := lex Code text.

(** *** Statements *)

(** The batch is split at the semicolons; empty statements are dropped. *)
Fixpoint split_semi (cur : list token) (ts : list token)
  : list (list token) :=
  match ts with
  | [] => match cur with [] => [] | _ :: _ => [cur] end
  | TSemi :: r =>
      match cur with [] => [] | _ :: _ => [cur] end ++ split_semi [] r
  | t :: r => split_semi (cur ++ [t]) r
  end.

Inductive expr : Type :=
| ELit (s : string)
| EParam (name : string)
| EConcat (a b : expr).

Record select_like : Type := mkSelect {
  sel_table : string;
  sel_column : string;
  sel_pattern : expr
}.

(** The logical structure of one statement: the one shape the model
    evaluates, or the bare tokens of anything else. *)
Inductive statement : Type :=
| SelectLike (q : select_like)
| Other (ts : list token).

Definition kw (s k : string) : bool := String.eqb (PyStr.lower s) k.

Definition parse_atom (t : token) : option expr :=
  match t with
  | TLit s => Some (ELit s)
  | TParam n => Some (EParam n)
  | _ => None
  end.

(** [atom (+ atom)*], associated to the left *)
Fixpoint parse_concat (acc : expr) (ts : list token) : option expr :=
  match ts with
  | [] => Some acc
  | TSym c :: t :: r =>
      if Ascii.eqb c "+" then
        match parse_atom t with
        | Some a => parse_concat (EConcat acc a) r
        | None => None
        end
      else None
  | _ => None
  end.

Definition parse_statement (ts : list token) : statement :=
  match ts with
  | TWord s :: TSym star :: TWord f :: TWord tbl :: TWord w :: TWord col
      :: TWord l :: t :: r =>
      if kw s "select" && Ascii.eqb star "*" && kw f "from"
         && kw w "where" && kw l "like"
      then match parse_atom t with
           | Some a =>
               match parse_concat a r with
               | Some e => SelectLike (mkSelect tbl col e)
               | None => Other ts
               end
           | None => Other ts
           end
      else Other ts
  | _ => Other ts
  end.

(** The statements the server sees in a statement text. *)
Definition statements (text : string) : list statement :=
  map parse_statement (split_semi [] (tokens text)).

(** *** Evaluation *)

Record table : Type := mkTable {
  tbl_name : string;
  tbl_columns : list string;
  tbl_rows : list (list value)
}.

Definition database : Type := list table.

Definition programming_error (msg : string) : exn :=
  mkExn "ProgrammingError" true msg.

Fixpoint eval_expr (B : BindingMap) (e : expr) : outcome value :=
  match e with
  | ELit s => Returned (VStr s)
  | EParam n =>
      match B !! n with
      | Some v => Returned v
      | None => Raised (programming_error "Incorrect syntax near ':'")
      end
  | EConcat a b =>
      match eval_expr B a, eval_expr B b with
      | Raised e, _ => Raised e
      | _, Raised e => Raised e
      | Returned (VStr x), Returned (VStr y) => Returned (VStr (x +:+ y))
      | Returned VNull, Returned (VStr _)
      | Returned (VStr _), Returned VNull
      | Returned VNull, Returned VNull => Returned VNull
      | Returned _, Returned _ =>
          Raised (programming_error "operand type clash")
      end
  end.

Definition find_table (db : database) (name : string) : option table :=
  find (fun t => String.eqb (PyStr.lower (tbl_name t)) (PyStr.lower name)) db.

Fixpoint column_index (cols : list string) (name : string) : option nat :=
  match cols with
  | [] => None
  | c :: r =>
      if String.eqb (PyStr.lower c) (PyStr.lower name) then Some 0
      else S <$> column_index r name
  end.

Definition field (i : nat) (row : list value) : value := nth i row VNull.

Definition run_select (db : database) (B : BindingMap) (q : select_like)
  : outcome ResultSet :=
  match find_table db (sel_table q) with
  | None => Raised (programming_error "Invalid object name")
  | Some t =>
      match column_index (tbl_columns t) (sel_column q) with
      | None => Raised (programming_error "Invalid column name")
      | Some i =>
          match eval_expr B (sel_pattern q) with
          | Raised e => Raised e
          | Returned p =>
              Returned (mkResultSet (tbl_columns t)
                          (List.filter (fun row => like_value p (field i row))
                                  (tbl_rows t)))
          end
      end
  end.

Definition run_statement (db : database) (B : BindingMap) (s : statement)
  : outcome ResultSet :=
  match s with
  | SelectLike q => run_select db B q
  | Other _ => Raised (programming_error "statement outside the model")
  end.

(** Every statement of the batch runs, in order; the result of the batch
    is the result set of the first one. *)
Fixpoint run_batch (db : database) (B : BindingMap) (ss : list statement)
  : outcome (list ResultSet) :=
  match ss with
  | [] => Returned []
  | s :: r =>
      match run_statement db B s with
      | Raised e => Raised e
      | Returned rs =>
          match run_batch db B r with
          | Raised e => Raised e
          | Returned rss => Returned (rs :: rss)
          end
      end
  end.

(** The parameter markers that the server finds in the text. *)
Definition markers (ts : list token) : list string :=
  omap (fun t => match t with TParam n => Some n | _ => None end) ts.

Definition execute (db : database) (text : string) (B : BindingMap)
  : outcome ResultSet :=
  if bool_decide (TBad ∈ tokens text)
  then Raised (programming_error "Unclosed quotation mark")
  else if negb (length (markers (tokens text))
                =? length (Library.bind_names text))
  then Raised (programming_error
                 "The SQL contains a different number of parameter markers than parameters were supplied")
  else match run_batch db B (statements text) with
       | Raised e => Raised e
       | Returned [] => Raised (programming_error "empty statement")
       | Returned (rs :: _) => Returned rs
       end.

(** The transport of the examples: the library's check in front of the
    stand-in. *)
Definition reference (db : database) : Transport :=
  Library.sqlalchemy Library.bind_names (execute db) (Returned tt).

End Sql.

(** ** Connections *)

Definition checkout (w : world) : world :=
  mkWorld (stdout w) (S (acquired w)) (released w) (wire w).

Definition checkin (w : world) : world :=
  mkWorld (stdout w) (acquired w) (S (released w)) (wire w).

Definition sent (text : string) (B : BindingMap) (w : world) : world :=
  mkWorld (stdout w) (acquired w) (released w) (wire w ++ [(text, B)]).

(** [with engine.connect() as conn: body].  When [engine.connect()] raises
    there is no connection and the body does not run.  Otherwise the
    connection is checked out, the body runs, and leaving the block, by
    falling off its end or by an exception, gives the connection back
    before the outcome of the body is passed on. *)
Definition with_connect {A} (tr : Transport) (body : Py A) : Py A :=
  fun w =>
    match tr_connect tr with
    | Raised e => (Raised e, w)
    | Returned _ =>
        let '(o, w') := body (checkout w) in (o, checkin w')
    end.

(** [conn.execute(text(statement), parameters)]: the statement text and
    the dictionary go to the library as two separate arguments.  A call
    without a dictionary is a call with the empty one. *)
Definition conn_execute (tr : Transport) (statement : string)
    (parameters : BindingMap) : Py ResultSet :=
  fun w => (tr_execute tr statement parameters, sent statement parameters w).

(** [result.fetchall()], [result.keys()] *)
Definition fetchall (result : ResultSet) : list (list value) := rs_rows result.
Definition keys (result : ResultSet) : list string := rs_keys result.

(** [str(v)] *)
Definition str (v : value) : string :=
  match v with
  | VStr s => s
  | VInt z => pretty z
  | VNull => "None"
  end.

Definition attribute_error (name : string) : exn :=
  mkExn "AttributeError" true name.

(** [row.name]: the field of the row under the key [name]. *)
Fixpoint getattr (ks : list string) (row : list value) (name : string)
  : outcome value :=
  match ks, row with
  | k :: ks', v :: row' =>
      if String.eqb k name then Returned v else getattr ks' row' name
  | _, _ => Raised (attribute_error name)
  end.

(** ** SQLAlchemyDemo.ipynb *)

Module SQLAlchemyDemo.

Import PyStr.

Section Cells.

Variable tr : Transport.

(** Cell 1: connect, report success or the error.  [unquoted_url] is the
    URL as the library renders it. *)
Definition connect_cell (database_name unquoted_url : string) : Py unit :=
  Py.print "Connecting to database using URL string:" >>
  Py.print (unquoted_url +:+ " " +:+ nl) >>
  Py.try_except_Exception
    (Py.call (tr_create_engine tr) >>
     with_connect tr
       (Py.print ("Successfully connected to " +:+ database_name +:+ "!")))
    (fun e =>
       Py.print ("Error while connecting to database:" +:+ nl) >>
       Py.print (exn_str e)).

(** Cell 3 *)
Definition query : string :=
  "SELECT TOP 5 Id, FirstName, LastName, Email FROM USERS ORDER BY FirstName, LastName".

(** [field.ljust(20)]: a method of strings only. *)
Definition field_ljust (w : nat) (v : value) : outcome string :=
  match v with
  | VStr s => Returned (ljust w s)
  | VInt _ => Raised (mkExn "AttributeError" true
                        "'int' object has no attribute 'ljust'")
  | VNull => Raised (mkExn "AttributeError" true
                       "'NoneType' object has no attribute 'ljust'")
  end.

(** Cell 9: column names in capitals, then the rows, in columns of 20. *)
Definition keys_cell : Py unit :=
  with_connect tr
    (let! result := conn_execute tr query ∅ in
     Py.for_each (keys result)
       (fun column_name =>
          Py.print_end (ljust 20 (upper column_name)) EmptyString) >>
     Py.print EmptyString >>
     Py.for_each (fetchall result)
       (fun row =>
          Py.for_each row
            (fun field =>
               let! s := Py.call (field_ljust 20 field) in
               Py.print_end s EmptyString) >>
          Py.print EmptyString)).

(** Cell 7: one line per row, first and last name. *)
Definition iterate_cell : Py unit :=
  with_connect tr
    (let! result := conn_execute tr query ∅ in
     Py.for_each (fetchall result)
       (fun row =>
          let! first := Py.call (getattr (keys result) row "FirstName") in
          let! last := Py.call (getattr (keys result) row "LastName") in
          Py.print (str first +:+ " " +:+ str last))).

(** Cells 13 and 20 print each airport the same way. *)
Definition print_airports (result : ResultSet) : Py unit :=
  Py.print (ljust 8 "IATA" +:+ ljust 50 "Airport name" +:+ "Location") >>
  Py.for_each (fetchall result)
    (fun airport =>
       let! iata := Py.call (getattr (keys result) airport "IATA") in
       let! name := Py.call (getattr (keys result) airport "name") in
       let! location := Py.call (getattr (keys result) airport "location") in
       Py.print (ljust 8 (str iata) +:+ ljust 50 (str name) +:+ str location)).

(** Cell 13: the search string is pasted into the statement text. *)
Definition unsafe_query (search_string : string) : string :=
  nl +:+ "select top 10" +:+ nl +:+
  "    IATA, " +:+ nl +:+
  "    [Airport name] as 'name', " +:+ nl +:+
  "    [Location served] as 'location' " +:+ nl +:+
  "from " +:+ nl +:+
  "    airports " +:+ nl +:+
  "where " +:+ nl +:+
  "    [Location served] like '%" +:+ search_string +:+ "%'".

Definition unsafe_cell (search_string : string) : Py unit :=
  Py.print ("Search string: " +:+ search_string +:+ nl) >>
  with_connect tr
    (let! result := conn_execute tr (unsafe_query search_string) ∅ in
     print_airports result >>
     Py.print (unsafe_query search_string +:+ " " +:+ nl)).

(** Cell 16: the value travels in the dictionary. *)
Definition parameterized_query : string :=
  "Select * from Users where FirstName like '%' + :first_name + '%'".

Definition parameterized_cell (name : string) : Py unit :=
  with_connect tr
    (let! result :=
       conn_execute tr parameterized_query {[ "first_name" := VStr name ]} in
     Py.print_rows (fetchall result)).

(** Cell 18: the value is concatenated into the statement text. *)
Definition unparameterized_query (name : string) : string :=
  "Select * from Users where FirstName like '%" +:+ name +:+ "'%'".

Definition unparameterized_cell (name : string) : Py unit :=
  with_connect tr
    (let! result := conn_execute tr (unparameterized_query name) ∅ in
     Py.print_rows (fetchall result)).

(** Cell 20: the airport search with a bound parameter. *)
Definition safe_query : string :=
  "select top 10 IATA, [Airport name] as 'name', [Location served] as 'location' from airports where [Location served] like '%' + :search_string + '%'".

Definition safe_cell (search_string : string) : Py unit :=
  Py.print ("Search string: " +:+ search_string +:+ nl) >>
  with_connect tr
    (let! result :=
       conn_execute tr safe_query
         {[ "search_string" := VStr search_string ]} in
     print_airports result >>
     Py.print (safe_query +:+ " " +:+ nl)).

End Cells.

End SQLAlchemyDemo.

(** ** AsajadHusseinAbdulKadhom.ipynb *)

Module Lab2.

(** The mapped classes, with the columns as nullable scalars.  [Price]
    (Float) and [ReleaseDate] (Date) are never read by [search_books] and
    are left out. *)
Record Book : Type := mkBook {
  Book_ISBN13 : value;
  Book_Title : value;
  Book_Language : value
}.

Record Store : Type := mkStore {
  Store_ID : value;
  Store_StoreName : value;
  Store_Address : value
}.

Record Inventory : Type := mkInventory {
  Inventory_StoreID : value;
  Inventory_ISBN13 : value;
  Inventory_AmountOfBooks : value
}.

(** The three places where [search_books] goes to the database through the
    ORM session; each may raise. *)
Record Session : Type := mkSession {
  (* session.query(Book).filter(Book.Title.ilike(p)).all() *)
  query_Book_Title_ilike : string -> outcome (list Book);
  (* book.inventory *)
  Book_inventory : Book -> outcome (list Inventory);
  (* inventory.store *)
  Inventory_store : Inventory -> outcome (option Store)
}.

Section SearchBooks.

Variable session : Session.

(** [f'%{title_search}%'] *)
Definition search_pattern (title_search : string) : string :=
  "%" +:+ title_search +:+ "%".

(** [results = session.query(Book).filter(Book.Title.ilike(...)).all()] *)
Definition search_results (title_search : string) : outcome (list Book) :=
  query_Book_Title_ilike session (search_pattern title_search).

Definition print_inventory (inventory : Inventory) : Py unit :=
  let! store := Py.call (Inventory_store session inventory) in
  match store with
  | None =>
      Py.raise (mkExn "AttributeError" true
                  "'NoneType' object has no attribute 'StoreName'")
  | Some store =>
      Py.print ("  Store: " +:+ str (Store_StoreName store) +:+
                ", Amount: " +:+ str (Inventory_AmountOfBooks inventory))
  end.

Definition print_book (book : Book) : Py unit :=
  Py.print ("Title: " +:+ str (Book_Title book) +:+
            ", ISBN: " +:+ str (Book_ISBN13 book)) >>
  Py.print "Stores and availability:" >>
  (let! inventories := Py.call (Book_inventory session book) in
   Py.for_each inventories print_inventory) >>
  Py.print EmptyString.

(** The body of the [try] block. *)
Definition search_books_try (title_search : string) : Py unit :=
  let! results := Py.call (search_results title_search) in
  match results with
  | [] => Py.print "No books found matching the search criteria."
  | _ :: _ => Py.for_each results print_book
  end.

(** The [except Exception as e] block. *)
Definition search_books_except (e : exn) : Py unit :=
  Py.print ("An error occurred: " +:+ exn_str e).

Definition search_books (title_search : string) : Py unit :=
  Py.try_except_Exception (search_books_try title_search) search_books_except.

(** [input()] when the input has ended. *)
Definition eof_error : exn := mkExn "EOFError" true "EOF when reading a line".

(** The last cell: [while True:] read a title, stop at [exit] in any
    letter case, otherwise search.  The lines typed are the list
    [inputs]; the prompt is shown by the front end and is not written to
    standard output. *)
Fixpoint main_loop (inputs : list string) : Py unit :=
  match inputs with
  | [] => Py.raise eof_error
  | title_search :: rest =>
      if String.eqb (PyStr.lower title_search) "exit" then Py.ret tt
      else search_books title_search >> main_loop rest
  end.

End SearchBooks.

(** A session over given tables, as the stand-in for the server answers
    it. *)
Definition orm (books : list Book) (inventories : list Inventory)
    (stores : list Store) : Session :=
  mkSession
    (fun p =>
       Returned
         (List.filter (fun b => Sql.like_value (VStr p) (Book_Title b)) books))
    (fun b =>
       Returned
         (List.filter
            (fun i => bool_decide (Inventory_ISBN13 i = Book_ISBN13 b))
            inventories))
    (fun i =>
       Returned
         (find (fun s => bool_decide (Store_ID s = Inventory_StoreID i))
               stores)).

End Lab2.

(** ** The executor that the cells spell out *)

Module Executor.

(** A template together with its dictionary: the two arguments of
    [conn.execute(parameterized_query, {"first_name": name})]. *)
Record BoundQuery : Type := mkBound {
  bq_template : string;
  bq_bindings : BindingMap
}.

(** The shape shared by cells 16 and 20:
    [with engine.connect() as conn: result = conn.execute(T, B); ...] *)
Definition execute_with {A} (tr : Transport) (Q : BoundQuery)
    (consume : ResultSet -> Py A) : Py A :=
  with_connect tr
    (let! result := conn_execute tr (bq_template Q) (bq_bindings Q) in
     consume result).

Definition execute (tr : Transport) (Q : BoundQuery) : Py ResultSet :=
  execute_with tr Q Py.ret.

(** The placeholder names of a template in the wording of the design
    text: a colon followed by one or more letters, digits or underscores,
    outside quoted string literals.  Used to state properties only; no
    cell computes it. *)
Fixpoint spec_scan (in_lit : bool) (cur : option string) (s : string)
  : list string :=
  match s with
  | EmptyString => Library.flush_name cur
  | String c r =>
      match cur with
      | Some acc =>
          if Sql.is_word_char c then spec_scan false (Some (Sql.snoc acc c)) r
          else Library.flush_name cur ++
               (if Ascii.eqb c "'" then spec_scan true None r
                else if Ascii.eqb c ":" then spec_scan false (Some EmptyString) r
                else spec_scan false None r)
      | None =>
          if in_lit then spec_scan (negb (Ascii.eqb c "'")) None r
          else if Ascii.eqb c "'" then spec_scan true None r
          else if Ascii.eqb c ":" then spec_scan false (Some EmptyString) r
          else spec_scan false None r
      end
  end.

Definition spec_placeholders (T : string) : gset string :=
  list_to_set (spec_scan false None T).

End Executor.

(** ** The data the notebooks recorded *)

Module Everyloop.

Definition user_row (id first last email : string) : list value :=
  [VStr id; VStr first; VStr last; VStr email].

(** The [Users] table of the course database, as cell 18 printed it when
    the injected statement returned every row: fifty users.  Of the seven
    columns the four that the notebook names are kept. *)
Definition Users : Sql.table :=
  Sql.mkTable "Users" ["Id"; "FirstName"; "LastName"; "Email"] [
    user_row "500603-4268" "Johanna" "Lennartsson" "johanna.lennartsson@gmail.com";
    user_row "500607-6521" "Catharina" "Knutson" "catharina.knutson@yahoo.com";
    user_row "530407-7989" "Ulla" "Alvarsson" "ulla.alvarsson@hotmail.com";
    user_row "530720-7675" "Alvin" "Lindholm" "alvin.lindholm@gmail.com";
    user_row "540430-4887" "Milla" "Albertsson" "milla.albertsson@gmail.com";
    user_row "550930-7164" "My" "Mårdh" "my.mardh@yahoo.com";
    user_row "561108-3389" "Vilhelmina" "Matsson" "vilhelmina.matsson@hotmail.com";
    user_row "570501-4924" "Mona" "Solberg" "mona.solberg@yahoo.com";
    user_row "571110-3843" "Frida" "Ericson" "frida.ericson@hotmail.com";
    user_row "580802-4175" "Sigge" "Pethrus" "sigge.pethrus@gmail.com";
    user_row "591007-1584" "Henrietta" "Blomgren" "henrietta.blomgren@hotmail.com";
    user_row "591026-6645" "Jannike" "Claesson" "jannike.claesson@telia.se";
    user_row "600309-7687" "Gunnel" "Mikaelsson" "gunnel.mikaelsson@hotmail.com";
    user_row "601103-7655" "Bjoern" "Waltersson" "bjoern.waltersson@gmail.com";
    user_row "620925-4245" "Annette" "Bergfalk" "annette.bergfalk@telia.se";
    user_row "630129-6936" "Valdemar" "Grahn" "valdemar.grahn@gmail.com";
    user_row "630303-4894" "Sigfrid" "Petersson" "sigfrid.petersson@yahoo.com";
    user_row "630309-2528" "Virginia" "Ljungman" "virginia.ljungman@hotmail.com";
    user_row "630611-7069" "Hjördis" "Wang" "hjordis.wang@hotmail.com";
    user_row "630912-1175" "Viggo" "Sorenson" "viggo.sorenson@gmail.com";
    user_row "630929-1879" "Bengt" "Svenson" "bengt.svenson@yahoo.com";
    user_row "640912-6799" "Ebbe" "Westerberg" "ebbe.westerberg@gmail.com";
    user_row "640913-5335" "Truls" "Matsson" "truls.matsson@hotmail.com";
    user_row "680820-7946" "Charlotte" "Sörensen" "charlotte.sorensen@yahoo.com";
    user_row "690206-8769" "Solvig" "Borg" "solvig.borg@hotmail.com";
    user_row "720524-3728" "Svea" "Solberg" "svea.solberg@hotmail.com";
    user_row "731012-9018" "Gustav" "Berg" "gustav.berg@hotmail.com";
    user_row "741109-2058" "Alexander" "Dahl" "alexander.dahl@telia.se";
    user_row "750210-6008" "Beata" "Möller" "beata.moller@hotmail.com";
    user_row "751123-9724" "Anne" "Åkerman" "anne.akerman@hotmail.com";
    user_row "770422-8188" "Malin" "Ek" "malin.ek@telia.se";
    user_row "800512-6752" "Randi" "Eriksson" "randi.eriksson@gmail.com";
    user_row "801022-4516" "Anton" "Ragnvaldsson" "anton.ragnvaldsson@gmail.com";
    user_row "811008-5301" "Sigrid" "Pettersson" "sigrid.pettersson@gmail.com";
    user_row "820624-3075" "Anders" "Hansson" "anders.hansson@hotmail.com";
    user_row "841204-3830" "Kaj" "Ingesson" "kaj.ingesson@gmail.com";
    user_row "851126-2068" "Elisabeth" "Vång" "elisabeth.vang@hotmail.com";
    user_row "861110-5749" "Rakel" "Albertsson" "rakel.albertsson@yahoo.com";
    user_row "880706-3713" "Felix" "Berglund" "felix.berglund@telia.se";
    user_row "890701-1480" "Felicia" "Bertilsson" "felicia.bertilsson@yahoo.com";
    user_row "910806-1370" "Petter" "Möller" "petter.moller@yahoo.com";
    user_row "921005-4598" "Kåre" "Lundberg" "kare.lundberg@yahoo.com";
    user_row "921110-8377" "Edvin" "Alfsson" "edvin.alfsson@yahoo.com";
    user_row "940406-2734" "Sigfrid" "Hall" "sigfrid.hall@gmail.com";
    user_row "950527-6317" "Arthur" "Björk" "arthur.bjork@telia.se";
    user_row "970602-8733" "Peter" "Ljungstrand" "peter.ljungstrand@hotmail.com";
    user_row "971220-1939" "Göran" "Patriksson" "goran.patriksson@hotmail.com";
    user_row "980128-9944" "Caroline" "Engström" "caroline.engstrom@yahoo.com";
    user_row "981003-1947" "Kettil" "Bergfalk" "kettil.bergfalk@yahoo.com";
    user_row "990130-1619" "Lennart" "Öman" "lennart.oman@yahoo.com"
  ].

Definition db : Sql.database := [Users].

End Everyloop.

(** ** Predicates used in the statements *)

(** A computation that leaves the connection counters alone. *)
Definition conn_neutral {A} (m : Py A) : Prop :=
  forall w, acquired (m w).2 = acquired w /\ released (m w).2 = released w.

(** A computation that only writes to standard output. *)
Definition only_prints {A} (m : Py A) : Prop :=
  forall w,
    acquired (m w).2 = acquired w /\ released (m w).2 = released w /\
    wire (m w).2 = wire w.

(** A computation that gives back every connection it checks out. *)
Definition balanced {A} (m : Py A) : Prop :=
  forall w, acquired w = released w -> acquired (m w).2 = released (m w).2.

(** The one request an execution sends, when a connection was obtained. *)
Definition request_of (tr : Transport) (statement : string)
    (parameters : BindingMap) : list (string * BindingMap) :=
  match tr_connect tr with
  | Returned _ => [(statement, parameters)]
  | Raised _ => []
  end.

(** The row of Frida Ericson, the one row that cell 16 printed. *)
Definition frida : list value :=
  Everyloop.user_row "571110-3843" "Frida" "Ericson"
    "frida.ericson@hotmail.com".

(** An error value of one of the two kinds of the design's taxonomy. *)
Definition classified (e : exn) : Prop :=
  exn_class e = "ConnectionError" \/ exn_class e = "QueryError".

(** The error that the second demo notebook recorded when its server was
    out of reach, and a library that answers every connection attempt
    with it. *)
Definition login_timeout : exn :=
  mkExn "OperationalError" true
    ("(pyodbc.OperationalError) ('HYT00', '[HYT00] [Microsoft][ODBC Driver 17 for SQL Server]Login timeout expired (0) (SQLDriverConnect)')"
     +:+ PyStr.nl +:+
     "(Background on this error at: https://sqlalche.me/e/20/e3q8)").

Definition unreachable : Transport :=
  mkTransport (Returned tt) (Raised login_timeout)
    (fun _ _ => Raised login_timeout).

Definition publictest_url : string :=
  "mssql+pyodbc://?odbc_connect=DRIVER=ODBC+Driver+17+for+SQL+Server;SERVER=192.168.2.223:1433;DATABASE=publictest;TrustServerCertificate=yes;UID=ITHS;PWD=ITHS;".

(** Everything written to standard output, as one text. *)
Fixpoint text_of (ps : list printed) : string :=
  match ps with
  | [] => EmptyString
  | Text s :: r => s +:+ text_of r
  | Repr _ :: r => text_of r
  end.

(** The interrupt of a running cell, which does not derive from
    [Exception], and a session in which it arrives during the query. *)
Definition keyboard_interrupt : exn :=
  mkExn "KeyboardInterrupt" false EmptyString.

Definition interrupted : Lab2.Session :=
  Lab2.mkSession (fun _ => Raised keyboard_interrupt)
                 (fun _ => Returned []) (fun _ => Returned None).

(** A session whose server is out of reach. *)
Definition offline : Lab2.Session :=
  Lab2.mkSession (fun _ => Raised login_timeout)
                 (fun _ => Raised login_timeout)
                 (fun _ => Raised login_timeout).

(** Appending one printed text to standard output. *)
Definition printing (s : string) (w : world) : world :=
  mkWorld (stdout w ++ [Text (s +:+ PyStr.nl)]) (acquired w) (released w)
          (wire w).

(** The books, stores and stock that the last cell of the notebook printed
    for its recorded search.  Store keys are not shown in the output; the
    stores are numbered in the order of their appearance. *)
Module Lab2Data.

Definition books : list Lab2.Book :=
  [Lab2.mkBook (VStr "978-0-316-76948-0") (VStr "The Secret Garden") VNull;
   Lab2.mkBook (VStr "978-1-5040-5104-2") (VStr "Secrets of the Past") VNull].

Definition stores : list Lab2.Store :=
  [Lab2.mkStore (VInt 1) (VStr "Booktopia") VNull;
   Lab2.mkStore (VInt 2) (VStr "Readmore Books") VNull;
   Lab2.mkStore (VInt 3) (VStr "Novel Ideas") VNull;
   Lab2.mkStore (VInt 4) (VStr "The Reading Room") VNull;
   Lab2.mkStore (VInt 5) (VStr "Page Turners") VNull].

Definition stock (isbn : string) (amounts : list Z) : list Lab2.Inventory :=
  imap (fun i a => Lab2.mkInventory (VInt (Z.of_nat (S i))) (VStr isbn) (VInt a))
       amounts.

Definition inventories : list Lab2.Inventory :=
  stock "978-0-316-76948-0" [48; 35; 0; 81; 106]%Z ++
  stock "978-1-5040-5104-2" [71; 25; 91; 0; 0]%Z.

Definition session : Lab2.Session := Lab2.orm books inventories stores.

End Lab2Data.

(** The entries that cell 9 writes for a result whose fields are all
    strings: one per column name, a line end, then per row one per field
    and a line end. *)
Definition table_entries (ks : list string) (rows : list (list string))
  : list printed :=
  map (fun k => Text (PyStr.ljust 20 (PyStr.upper k))) ks
  ++ [Text PyStr.nl]
  ++ flat_map
       (fun row => map (fun f => Text (PyStr.ljust 20 f)) row ++ [Text PyStr.nl])
       rows.

(** A book that has a title. *)
Definition has_title (b : Lab2.Book) : bool :=
  match Lab2.Book_Title b with
  | VStr _ => true
  | _ => false
  end.

(** ** The second demo notebook *)

Module Demo2.

Import PyStr.

(** The cell under [Fetch data].  The statement is built with [select()];
    [query_text] is the text the library renders for it, [params_text] the
    rendering of its parameters and [params] the parameters themselves. *)
Definition fetch_data_cell (tr : Transport) (query_text params_text : string)
    (params : BindingMap) : Py unit :=
  Py.print (query_text +:+ nl +:+ nl +:+ params_text +:+ nl) >>
  with_connect tr
    (let! result := conn_execute tr query_text params in
     Py.for_each (keys result)
       (fun column_name =>
          Py.print_end (ljust 20 (upper column_name)) " ") >>
     Py.print EmptyString >>
     Py.for_each (fetchall result)
       (fun row =>
          Py.for_each row
            (fun field => Py.print_end (ljust 20 (str field)) " ") >>
          Py.print EmptyString)).

(** [string.ascii_letters], [string.digits] *)
Definition ascii_letters : string :=
  "abcdefghijklmnopqrstuvwxyzABCDEFGHIJKLMNOPQRSTUVWXYZ".
Definition digits : string := "0123456789".

(** [random.choice(seq)] for a non-empty [seq]: the element at an index
    below its length, here the draw [r] reduced modulo the length. *)
Definition random_choice (r : nat) (seq : string) : ascii :=
  match String.get (r mod String.length seq) seq with
  | Some c => c
  | None => "000"%char
  end.

Fixpoint join (cs : list ascii) : string :=
  match cs with
  | [] => EmptyString
  | c :: r => String c (join r)
  end.

(** [''.join(random.choice(string.ascii_letters + string.digits)
            for i in range(10))], with [draw i] the i-th random draw. *)
Definition password (draw : nat -> nat) : string :=
  join (map (fun i => random_choice (draw i) (ascii_letters +:+ digits))
            (seq 0 10)).

End Demo2.

(** ** Further notions used in the statements *)

(** Running cells one after the other; the run stops at the first cell
    that raises. *)
Definition run_all (cells : list (Py unit)) : Py unit :=
  Py.for_each cells (fun cell => cell).

(** The cells of SQLAlchemyDemo.ipynb that talk to the database, in the
    order of the notebook, with the values typed into them. *)
Definition demo_cells (tr : Transport) (url search1 name1 name2 search2 : string)
  : list (Py unit) :=
  [SQLAlchemyDemo.connect_cell tr "everyloop" url;
   SQLAlchemyDemo.iterate_cell tr;
   SQLAlchemyDemo.keys_cell tr;
   SQLAlchemyDemo.unsafe_cell tr search1;
   SQLAlchemyDemo.parameterized_cell tr name1;
   SQLAlchemyDemo.unparameterized_cell tr name2;
   SQLAlchemyDemo.safe_cell tr search2].

(** No quote character. *)
Fixpoint quote_free (s : string) : bool :=
  match s with
  | EmptyString => true
  | String c r => negb (Ascii.eqb c "'") && quote_free r
  end.

(** A letter or a digit. *)
Definition is_alnum (c : ascii) : bool :=
  PyStr.is_upper c || PyStr.is_lower c || PyStr.is_digit c.

Fixpoint all_chars (f : ascii -> bool) (s : string) : bool :=
  match s with
  | EmptyString => true
  | String c r => f c && all_chars f r
  end.

(** Setting standard output, the rest of the world unchanged. *)
Definition with_stdout (w : world) (out : list printed) : world :=
  mkWorld out (acquired w) (released w) (wire w).

(** The entries of the table of the cell under [Fetch data]. *)
Definition fetch_entries (ks : list string) (rows : list (list value))
  : list printed :=
  map (fun k => Text (PyStr.ljust 20 (PyStr.upper k) +:+ " ")) ks
  ++ [Text PyStr.nl]
  ++ flat_map
       (fun row =>
          map (fun f => Text (PyStr.ljust 20 (str f) +:+ " ")) row
          ++ [Text PyStr.nl])
       rows.

(** A row of the result of [query]: Id, FirstName, LastName, Email. *)
Definition query_row (r : value * value * value * value) : list value :=
  let '(id, first, last, email) := r in [id; first; last; email].

Definition name_line (r : value * value * value * value) : printed :=
  let '(_, first, last, _) := r in
  Text ((str first +:+ " " +:+ str last) +:+ PyStr.nl).

(** A row of the airport search: IATA, name, location. *)
Definition airport_row (r : value * value * value) : list value :=
  let '(iata, name, location) := r in [iata; name; location].

Definition airport_line (r : value * value * value) : printed :=
  let '(iata, name, location) := r in
  Text ((PyStr.ljust 8 (str iata) +:+ PyStr.ljust 50 (str name) +:+
         str location) +:+ PyStr.nl).

Definition airport_header : printed :=
  Text ((PyStr.ljust 8 "IATA" +:+ PyStr.ljust 50 "Airport name" +:+
         "Location") +:+ PyStr.nl).

(** What [search_books] writes for one book, given its stock rows and the
    store of each row. *)
Definition inventory_line (store : Lab2.Inventory -> Lab2.Store)
    (i : Lab2.Inventory) : printed :=
  Text (("  Store: " +:+ str (Lab2.Store_StoreName (store i)) +:+
         ", Amount: " +:+ str (Lab2.Inventory_AmountOfBooks i)) +:+ PyStr.nl).

Definition title_line (b : Lab2.Book) : printed :=
  Text (("Title: " +:+ str (Lab2.Book_Title b) +:+
         ", ISBN: " +:+ str (Lab2.Book_ISBN13 b)) +:+ PyStr.nl).

Definition stores_line : printed :=
  Text ("Stores and availability:" +:+ PyStr.nl).

Definition book_entries (stock : Lab2.Book -> list Lab2.Inventory)
    (store : Lab2.Inventory -> Lab2.Store) (b : Lab2.Book) : list printed :=
  [title_line b; stores_line]
  ++ map (inventory_line store) (stock b)
  ++ [Text PyStr.nl].

(** A session that raises nothing but exceptions deriving from
    [Exception]. *)
Definition raises_Exception_only {A} (o : outcome A) : Prop :=
  forall e, o = Raised e -> exn_is_Exception e = true.

Definition well_behaved (session : Lab2.Session) : Prop :=
  (forall p, raises_Exception_only (Lab2.query_Book_Title_ilike session p))
  /\ (forall b, raises_Exception_only (Lab2.Book_inventory session b))
  /\ (forall i, raises_Exception_only (Lab2.Inventory_store session i)).

(** The filter [Book.Title.ilike(p)] as a server answers it whose LIKE is
    the predicate [like] on a pattern and a title: a book without a title
    is never selected. *)
Definition title_like (like : string -> string -> bool) (p : string)
    (b : Lab2.Book) : bool :=
  match Lab2.Book_Title b with
  | VStr t => like p t
  | _ => false
  end.

(** A session over the rows [books] whose server filters with [like]. *)
Definition answers_ilike (like : string -> string -> bool)
    (books : list Lab2.Book) (session : Lab2.Session) : Prop :=
  forall p,
    Lab2.query_Book_Title_ilike session p
    = Returned (List.filter (title_like like p) books).

(** A book whose title has at least one character. *)
Definition has_nonempty_title (b : Lab2.Book) : bool :=
  match Lab2.Book_Title b with
  | VStr (String _ _) => true
  | _ => false
  end.

(** What [search_books] writes for the books found. *)
Definition not_found_line : printed :=
  Text ("No books found matching the search criteria." +:+ PyStr.nl).

Definition listing (stock : Lab2.Book -> list Lab2.Inventory)
    (store : Lab2.Inventory -> Lab2.Store) (bs : list Lab2.Book)
  : list printed :=
  match bs with
  | [] => [not_found_line]
  | _ :: _ => flat_map (book_entries stock store) bs
  end.

(** The stock rows and the store of a row in the recorded tables. *)
Definition recorded_stock (b : Lab2.Book) : list Lab2.Inventory :=
  List.filter
    (fun i => bool_decide (Lab2.Inventory_ISBN13 i = Lab2.Book_ISBN13 b))
    Lab2Data.inventories.

Definition recorded_store (i : Lab2.Inventory) : Lab2.Store :=
  default (Lab2.mkStore VNull VNull VNull)
    (find (fun s => bool_decide (Lab2.Store_ID s = Lab2.Inventory_StoreID i))
          Lab2Data.stores).

(** The entries that cell 9 writes for one row of strings. *)
Definition row_entries (row : list string) : list printed :=
  map (fun f => Text (PyStr.ljust 20 f)) row ++ [Text PyStr.nl].


(** A template in which a name stands inside a string literal. *)
Definition quoted_name_query : string :=
  "Select * from Users where FirstName like ':first_name'".
(** The airports that cells 13 and 20 recorded for the search [stock]. *)
Definition recorded_airports : list (value * value * value) :=
  [(VStr "ARN", VStr "Stockholm Arlanda Airport",
    VStr "Stockholm, Sweden");
   (VStr "BMA", VStr "Stockholm Bromma Airport",
    VStr "Stockholm, Sweden");
   (VStr "FST", VStr "Fort Stockton–Pecos County Airport",
    VStr "Fort Stockton, Texas, United States");
   (VStr "NYO", VStr "Stockholm Skavsta Airport",
    VStr "Stockholm / Nyköping, Sweden");
   (VStr "RLG", VStr "Rostock–Laage Airport",
    VStr "Rostock, Mecklenburg-Vorpommern, Germany");
   (VStr "SCK", VStr "Stockton Metropolitan Airport",
    VStr "Stockton, California, United States");
   (VStr "SMP", VStr "Stockholm Airport[1]",
    VStr "Stockholm, Papua New Guinea");
   (VStr "STO", VStr "metropolitan area6",
    VStr "Stockholm, Sweden");
   (VStr "VST", VStr "Stockholm Västerås Airport",
    VStr "Stockholm / Västerås, Sweden")].

(** * Properties *)

(** ** What the primitives leave unchanged *)

Create HintDb py discriminated.

Lemma only_prints_ret {A} (a : A) : only_prints (Py.ret a).
Proof. now intros w. Qed.

Lemma only_prints_raise {A} (e : exn) : only_prints (@Py.raise A e).
Proof. now intros w. Qed.

Lemma only_prints_call {A} (o : outcome A) : only_prints (Py.call o).
Proof. now intros w. Qed.

Lemma only_prints_write (p : printed) : only_prints (Py.write p).
Proof. now intros w. Qed.

Lemma only_prints_print_end (s e : string) : only_prints (Py.print_end s e).
Proof. apply only_prints_write. Qed.

Lemma only_prints_print (s : string) : only_prints (Py.print s).
Proof. apply only_prints_write. Qed.

Lemma only_prints_print_rows rows : only_prints (Py.print_rows rows).
Proof. apply only_prints_write. Qed.

Lemma only_prints_seq {A B} (m : Py A) (k : A -> Py B) :
  only_prints m -> (forall a, only_prints (k a)) -> only_prints (Py.seq m k).
Proof.
  intros Hm Hk w. unfold Py.seq.
  specialize (Hm w). destruct (m w) as [[a|e] w1]; simpl in *.
  - destruct (Hk a w1) as (Ha & Hr & Hw).
    destruct Hm as (Ha' & Hr' & Hw'). repeat split; congruence.
  - exact Hm.
Qed.

Lemma only_prints_for_each {A} (xs : list A) (body : A -> Py unit) :
  (forall x, only_prints (body x)) -> only_prints (Py.for_each xs body).
Proof.
  intros Hb. induction xs as [|x xs IH]; simpl.
  - apply only_prints_ret.
  - apply only_prints_seq; auto.
Qed.

Lemma only_prints_try {A} (body : Py A) (handler : exn -> Py A) :
  only_prints body -> (forall e, only_prints (handler e)) ->
  only_prints (Py.try_except_Exception body handler).
Proof.
  intros Hb Hh w. unfold Py.try_except_Exception.
  specialize (Hb w). destruct (body w) as [[a|e] w1]; simpl in *; auto.
  destruct (exn_is_Exception e); simpl; auto.
  destruct (Hh e w1) as (Ha & Hr & Hw).
  destruct Hb as (Ha' & Hr' & Hw'). repeat split; congruence.
Qed.

#[global] Hint Resolve only_prints_ret only_prints_raise only_prints_call
  only_prints_write only_prints_print_end only_prints_print
  only_prints_print_rows only_prints_seq only_prints_for_each
  only_prints_try : py.

Lemma only_prints_conn_neutral {A} (m : Py A) : only_prints m -> conn_neutral m.
Proof. intros H w. destruct (H w) as (Ha & Hr & _). now split. Qed.

Lemma only_prints_print_airports (result : ResultSet) :
  only_prints (SQLAlchemyDemo.print_airports result).
Proof.
  unfold SQLAlchemyDemo.print_airports.
  apply only_prints_seq; [auto with py|]. intros _.
  apply only_prints_for_each. intros row.
  repeat (apply only_prints_seq; [auto with py|]; intros ?).
  auto with py.
Qed.

#[global] Hint Resolve only_prints_print_airports : py.

(** ** Strings, lists and loops *)

Lemma append_empty_r (s : string) : s +:+ EmptyString = s.
Proof.
  induction s as [|c s IH]; [reflexivity|].
  change (String c (s +:+ EmptyString) = String c s). now rewrite IH.
Qed.

Lemma world_eta (w : world) :
  mkWorld (stdout w) (acquired w) (released w) (wire w) = w.
Proof. now destruct w. Qed.

Lemma for_each_app {A} (xs ys : list A) (body : A -> Py unit) (w : world) :
  Py.for_each (xs ++ ys) body w
  = Py.seq (Py.for_each xs body) (fun _ => Py.for_each ys body) w.
Proof.
  revert w. induction xs as [|x xs IH]; intros w; simpl.
  - reflexivity.
  - unfold Py.seq. destruct (body x w) as [[a|e] w']; [|reflexivity].
    rewrite IH. reflexivity.
Qed.

Lemma filter_ext_bool {A} (f g : A -> bool) (l : list A) :
  (forall a, f a = g a) -> List.filter f l = List.filter g l.
Proof.
  intros H. induction l as [|a l IH]; simpl; [reflexivity|].
  now rewrite H, IH.
Qed.

(** ** The [with] block *)

(** Leaving the block gives the connection back whatever the body did,
    and a failed [engine.connect()] checks nothing out. *)
Lemma with_connect_counters {A} (tr : Transport) (body : Py A) (w : world) :
  conn_neutral body ->
  let w' := (with_connect tr body w).2 in
  match tr_connect tr with
  | Returned _ =>
      acquired w' = S (acquired w) /\ released w' = S (released w)
  | Raised _ =>
      acquired w' = acquired w /\ released w' = released w
  end.
Proof.
  intros Hn. unfold with_connect.
  destruct (tr_connect tr) as [u|e]; simpl; [|now split].
  specialize (Hn (checkout w)).
  destruct (body (checkout w)) as [o w1]; simpl in *.
  destruct Hn as [Ha Hr]. now rewrite Ha, Hr.
Qed.

Lemma conn_execute_neutral tr statement parameters :
  conn_neutral (conn_execute tr statement parameters).
Proof. now intros w. Qed.

Lemma conn_neutral_seq {A B} (m : Py A) (k : A -> Py B) :
  conn_neutral m -> (forall a, conn_neutral (k a)) -> conn_neutral (Py.seq m k).
Proof.
  intros Hm Hk w. unfold Py.seq.
  specialize (Hm w). destruct (m w) as [[a|e] w1]; simpl in *; [|exact Hm].
  destruct (Hk a w1) as (Ha & Hr). destruct Hm as (Ha' & Hr').
  split; congruence.
Qed.

(** ** What goes to the library *)

Lemma with_connect_wire {A} (tr : Transport) (body : Py A) (w : world) u :
  tr_connect tr = Returned u ->
  wire (with_connect tr body w).2 = wire (body (checkout w)).2.
Proof.
  intros Hc. unfold with_connect. rewrite Hc.
  now destruct (body (checkout w)).
Qed.

Lemma execute_with_wire {A} (tr : Transport) (Q : Executor.BoundQuery)
    (consume : ResultSet -> Py A) (w : world) :
  (forall r, only_prints (consume r)) ->
  wire (Executor.execute_with tr Q consume w).2 =
  wire w ++ request_of tr (Executor.bq_template Q) (Executor.bq_bindings Q).
Proof.
  intros Hc. unfold Executor.execute_with, request_of.
  destruct (tr_connect tr) as [u|e] eqn:Hconn.
  - rewrite (with_connect_wire _ _ _ u Hconn).
    unfold Py.seq, conn_execute.
    destruct (tr_execute tr _ _) as [r|e]; simpl; [|reflexivity].
    now destruct (Hc r (sent (Executor.bq_template Q) (Executor.bq_bindings Q)
                             (checkout w))) as (_ & _ & ->).
  - unfold with_connect. rewrite Hconn. simpl. now rewrite app_nil_r.
Qed.

Lemma seq_print_wire {A} (s : string) (m : Py A) (w : world) :
  wire (Py.seq (Py.print s) (fun _ => m) w).2 =
  wire (m (Py.print s w).2).2.
Proof. reflexivity. Qed.

(** Cells 16 and 20 are instances of the executor. *)
Lemma parameterized_cell_unfold (tr : Transport) (name : string) :
  SQLAlchemyDemo.parameterized_cell tr name =
  Executor.execute_with tr
    (Executor.mkBound SQLAlchemyDemo.parameterized_query
       {[ "first_name" := VStr name ]})
    (fun result => Py.print_rows (fetchall result)).
Proof. reflexivity. Qed.

Lemma safe_cell_unfold (tr : Transport) (search_string : string) :
  SQLAlchemyDemo.safe_cell tr search_string =
  (Py.print ("Search string: " +:+ search_string +:+ PyStr.nl) >>
   Executor.execute_with tr
     (Executor.mkBound SQLAlchemyDemo.safe_query
        {[ "search_string" := VStr search_string ]})
     (fun result =>
        SQLAlchemyDemo.print_airports result >>
        Py.print (SQLAlchemyDemo.safe_query +:+ " " +:+ PyStr.nl))).
Proof. reflexivity. Qed.

(** C2.  Every execution of a bound query hands the library the template
    text itself as the statement and the bindings as a separate argument:
    for the general executor and for the two bound cells of the notebook
    (cells 16 and 20), whatever the bound value is, the request sent is the
    pair of the unchanged template and the dictionary holding the value. *)
Theorem bound_query_text_is_template (tr : Transport) (w : world) :
  (forall Q,
     wire (Executor.execute tr Q w).2 =
     wire w ++ request_of tr (Executor.bq_template Q) (Executor.bq_bindings Q))
  /\ (forall name,
        wire (SQLAlchemyDemo.parameterized_cell tr name w).2 =
        wire w ++ request_of tr SQLAlchemyDemo.parameterized_query
                    {[ "first_name" := VStr name ]})
  /\ (forall search_string,
        wire (SQLAlchemyDemo.safe_cell tr search_string w).2 =
        wire w ++ request_of tr SQLAlchemyDemo.safe_query
                    {[ "search_string" := VStr search_string ]}).
Proof.
  split; [|split].
  - intros Q. apply execute_with_wire. auto with py.
  - intros name. rewrite parameterized_cell_unfold.
    rewrite execute_with_wire; [reflexivity | auto with py].
  - intros s. rewrite safe_cell_unfold, seq_print_wire.
    rewrite execute_with_wire; [reflexivity | auto with py].
Qed.

(** The cells without bindings, by contrast, put the value into the text. *)
Lemma unparameterized_text_depends_on_value :
  SQLAlchemyDemo.unparameterized_query "';--" =
    "Select * from Users where FirstName like '%';--'%'"
  /\ SQLAlchemyDemo.unparameterized_query "Frida" =
    "Select * from Users where FirstName like '%Frida'%'".
Proof. split; reflexivity. Qed.

(** ** Connections are given back *)

(** C5.  An execution checks out at most one connection and gives back
    exactly what it checked out, on every way out of the [with] block:
    when [engine.connect()] succeeds, one connection is acquired and one is
    released, whether the execution and the consumption of the result
    return or raise; when [engine.connect()] itself raises, none is
    acquired and none released.  Acquisitions and releases therefore stay
    in balance. *)
Theorem connection_released_exactly_once {A} (tr : Transport)
    (Q : Executor.BoundQuery) (consume : ResultSet -> Py A) (w : world) :
  (forall r, conn_neutral (consume r)) ->
  let w' := (Executor.execute_with tr Q consume w).2 in
  match tr_connect tr with
  | Returned _ =>
      acquired w' = S (acquired w) /\ released w' = S (released w)
  | Raised _ =>
      acquired w' = acquired w /\ released w' = released w
  end
  /\ (acquired w = released w -> acquired w' = released w').
Proof.
  intros Hc w'.
  assert (H : match tr_connect tr with
              | Returned _ =>
                  acquired w' = S (acquired w) /\ released w' = S (released w)
              | Raised _ =>
                  acquired w' = acquired w /\ released w' = released w
              end).
  { apply with_connect_counters.
    apply conn_neutral_seq; [apply conn_execute_neutral | exact Hc]. }
  split; [exact H|].
  destruct (tr_connect tr); destruct H as [Ha Hr]; intros Heq; congruence.
Qed.

Lemma connection_released_exactly_once_witness :
  (forall r, conn_neutral (Py.print_rows (fetchall r)))
  /\ let w' := (Executor.execute_with (Sql.reference Everyloop.db)
                  (Executor.mkBound SQLAlchemyDemo.parameterized_query
                     {[ "first_name" := VStr "Frida" ]})
                  (fun r => Py.print_rows (fetchall r)) world0).2 in
     (acquired w' = 1 /\ released w' = 1)
     /\ (acquired world0 = released world0 -> acquired w' = released w').
Proof.
  split.
  - intros r w. split; reflexivity.
  - apply (connection_released_exactly_once (Sql.reference Everyloop.db)
             (Executor.mkBound SQLAlchemyDemo.parameterized_query
                {[ "first_name" := VStr "Frida" ]})
             (fun r => Py.print_rows (fetchall r)) world0).
    intros r w. split; reflexivity.
Defined.

(** The same for each cell of the notebook that opens a connection. *)
Lemma with_connect_balanced {A} (tr : Transport) (body : Py A) :
  conn_neutral body -> balanced (with_connect tr body).
Proof.
  intros Hn w Hw.
  pose proof (with_connect_counters tr body w Hn) as H. simpl in H.
  destruct (tr_connect tr); destruct H as [Ha Hr]; congruence.
Qed.

Lemma balanced_after_print {A} (s : string) (m : Py A) :
  balanced m -> balanced (Py.print s >> m).
Proof. intros Hm w Hw. apply (Hm (printing s w)). exact Hw. Qed.

Lemma execute_then_neutral {A} (tr : Transport) (T : string) (B : BindingMap)
    (consume : ResultSet -> Py A) :
  (forall r, only_prints (consume r)) ->
  conn_neutral (let! result := conn_execute tr T B in consume result).
Proof.
  intros Hc. apply conn_neutral_seq; [apply conn_execute_neutral|].
  intros r. apply only_prints_conn_neutral, Hc.
Qed.

Lemma only_prints_field_row (row : list value) :
  only_prints
    (Py.for_each row
       (fun field =>
          let! s := Py.call (SQLAlchemyDemo.field_ljust 20 field) in
          Py.print_end s EmptyString)).
Proof.
  apply only_prints_for_each. intros f.
  apply only_prints_seq; auto with py.
Qed.

Lemma cells_release_connection (tr : Transport) (input : string) :
  balanced (SQLAlchemyDemo.keys_cell tr)
  /\ balanced (SQLAlchemyDemo.unsafe_cell tr input)
  /\ balanced (SQLAlchemyDemo.parameterized_cell tr input)
  /\ balanced (SQLAlchemyDemo.unparameterized_cell tr input)
  /\ balanced (SQLAlchemyDemo.safe_cell tr input).
Proof.
  repeat apply conj.
  - apply with_connect_balanced, execute_then_neutral. intros r.
    apply only_prints_seq; [auto with py|]. intros _.
    apply only_prints_seq; [auto with py|]. intros _.
    apply only_prints_for_each. intros row.
    apply only_prints_seq; [apply only_prints_field_row | auto with py].
  - apply balanced_after_print, with_connect_balanced, execute_then_neutral.
    auto with py.
  - apply with_connect_balanced, execute_then_neutral. auto with py.
  - apply with_connect_balanced, execute_then_neutral. auto with py.
  - apply balanced_after_print, with_connect_balanced, execute_then_neutral.
    auto with py.
Qed.

(** ** Binding *)

Lemma execute_connected (tr : Transport) (T : string) (B : BindingMap)
    (w : world) u :
  tr_connect tr = Returned u ->
  Executor.execute tr (Executor.mkBound T B) w
  = (tr_execute tr T B, checkin (sent T B (checkout w))).
Proof.
  intros Hc. unfold Executor.execute, Executor.execute_with, with_connect.
  rewrite Hc. unfold Py.seq, conn_execute, Py.ret. simpl.
  now destruct (tr_execute tr T B).
Qed.

Lemma placeholders_parameterized_query :
  Executor.spec_placeholders SQLAlchemyDemo.parameterized_query
  = {[ "first_name" ]}.
Proof.
  unfold Executor.spec_placeholders.
  replace (Executor.spec_scan false None SQLAlchemyDemo.parameterized_query)
    with ["first_name"] by (vm_compute; reflexivity).
  simpl. apply (right_id_L ∅ (∪)).
Qed.

Lemma bind_names_parameterized_query :
  Library.bind_names SQLAlchemyDemo.parameterized_query = ["first_name"].
Proof. vm_compute. reflexivity. Qed.

Lemma missing_some (names : list string) (B : BindingMap) (n : string) :
  n ∈ names -> B !! n = None ->
  exists m, Library.missing names B = Some m /\ m ∈ names /\ B !! m = None.
Proof.
  intros Hin Hn. unfold Library.missing.
  destruct (find _ names) as [m|] eqn:Hf.
  - apply find_some in Hf as [Hm Hb]. exists m. split; [reflexivity|].
    split; [now apply list_elem_of_In | now apply bool_decide_eq_true in Hb].
  - apply list_elem_of_In in Hin.
    pose proof (find_none _ _ Hf n Hin) as Hb. cbv beta in Hb.
    apply bool_decide_eq_false in Hb. contradiction.
Qed.

Lemma missing_none (names : list string) (B : BindingMap) :
  (forall n, n ∈ names -> is_Some (B !! n)) -> Library.missing names B = None.
Proof.
  intros H. unfold Library.missing.
  destruct (find _ names) as [m|] eqn:Hf; [|reflexivity].
  apply find_some in Hf as [Hm Hb]. apply bool_decide_eq_true in Hb.
  destruct (H m) as [v Hv]; [now apply list_elem_of_In|]. congruence.
Qed.

Lemma used_insert_other (names : list string) (B : BindingMap)
    (extra : string) (v : value) :
  extra ∉ names ->
  Library.used names (<[ extra := v ]> B) = Library.used names B.
Proof.
  intros Hn. unfold Library.used. apply map_eq. intros i. apply option_eq.
  intros x. rewrite !map_lookup_filter_Some. simpl.
  rewrite lookup_insert_Some. split.
  - intros [[[<- <-]|[Hne Hx]] Hin]; [contradiction | now split].
  - intros [Hx Hin]. split; [|exact Hin]. right. split; [|exact Hx].
    intros <-. contradiction.
Qed.

Lemma used_all (names : list string) (B : BindingMap) :
  dom B = list_to_set (C := gset string) names -> Library.used names B = B.
Proof.
  intros Hd. unfold Library.used. apply map_filter_id. intros i x Hx. simpl.
  assert (Hi : i ∈ dom B) by (apply elem_of_dom; eauto).
  rewrite Hd in Hi. now apply elem_of_list_to_set in Hi.
Qed.

Lemma is_Some_insert_other (B : BindingMap) (extra n : string) (v : value) :
  is_Some (B !! n) -> is_Some (<[ extra := v ]> B !! n).
Proof.
  intros [x Hx]. destruct (decide (extra = n)) as [->|Hne].
  - rewrite lookup_insert_eq. eauto.
  - rewrite lookup_insert_ne by exact Hne. eauto.
Qed.

(** C3, refuted as stated.  The dictionary binds [first_name] and also
    [extra], which is no placeholder of the template of cell 16.  The
    execution does not fail, with a BindingMismatch or otherwise: it
    returns the row of Frida as if [extra] were not there. *)
Lemma execute_accepts_extra_name :
  let T := SQLAlchemyDemo.parameterized_query in
  let B : BindingMap :=
    <[ "extra" := VStr "x" ]> {[ "first_name" := VStr "Frida" ]} in
  ("extra" ∈ dom B /\ "extra" ∉ Executor.spec_placeholders T)
  /\ Executor.execute (Sql.reference Everyloop.db) (Executor.mkBound T B)
       world0
     = (Returned (mkResultSet ["Id"; "FirstName"; "LastName"; "Email"] [frida]),
        checkin (sent T B (checkout world0)))
  /\ ~ (exists e,
          (Executor.execute (Sql.reference Everyloop.db) (Executor.mkBound T B)
             world0).1 = Raised e).
Proof.
  intros T B.
  assert (He : Executor.execute (Sql.reference Everyloop.db)
                 (Executor.mkBound T B) world0
               = (Returned (mkResultSet ["Id"; "FirstName"; "LastName"; "Email"]
                              [frida]),
                  checkin (sent T B (checkout world0)))).
  { rewrite (execute_connected (Sql.reference Everyloop.db) T B world0 tt
               eq_refl).
    f_equal; vm_compute; reflexivity. }
  split; [split|split].
  - unfold B. rewrite dom_insert_L. set_solver.
  - unfold T. rewrite placeholders_parameterized_query.
    rewrite elem_of_singleton. discriminate.
  - exact He.
  - intros (e & Hr). rewrite He in Hr. discriminate Hr.
Qed.

(** C3, as the code has it.  The notebooks compare no names themselves:
    the outcome of an execution is what the library answers to [T] and
    [B], and the connection is given back.  The library checks one
    direction only.

    - When a name that the library reads in [T] has no value in [B], the
      execution raises the library's [StatementError], naming such a
      parameter, whatever the driver would have done with the statement:
      the driver is not asked and no result is returned.  The connection
      has been given back.
    - When every name read in [T] has a value, there is no failure on
      account of the names: the outcome is the driver's, called with [T]
      and the values of the names of [T].  A further entry of [B] under a
      name that [T] does not have changes nothing: the driver is called
      with the same values and the outcome is the same. *)
Theorem binding_is_checked_by_the_library
    (names : string -> list string)
    (driver : string -> BindingMap -> outcome ResultSet)
    (T : string) (B : BindingMap) (w : world) :
  let tr := Library.sqlalchemy names driver (Returned tt) in
  (forall tr' u,
     tr_connect tr' = Returned u ->
     Executor.execute tr' (Executor.mkBound T B) w
     = (tr_execute tr' T B, checkin (sent T B (checkout w))))
  /\ (forall n,
        n ∈ names T -> B !! n = None ->
        exists m,
          m ∈ names T /\ B !! m = None
          /\ exn_class (Library.statement_error m) = "StatementError"
          /\ Executor.execute tr (Executor.mkBound T B) w
             = (Raised (Library.statement_error m),
                checkin (sent T B (checkout w))))
  /\ ((forall n, n ∈ names T -> is_Some (B !! n)) ->
      Executor.execute tr (Executor.mkBound T B) w
      = (driver T (Library.used (names T) B),
         checkin (sent T B (checkout w)))
      /\ forall extra v,
           extra ∉ names T ->
           Executor.execute tr (Executor.mkBound T (<[ extra := v ]> B)) w
           = (driver T (Library.used (names T) B),
              checkin (sent T (<[ extra := v ]> B) (checkout w)))).
Proof.
  intros tr. split; [|split].
  - intros tr' u Hc. now apply (execute_connected tr' T B w u).
  - intros n Hin Hn.
    destruct (missing_some (names T) B n Hin Hn) as (m & Hm & Hmin & HmB).
    exists m. repeat split; auto.
    rewrite (execute_connected tr T B w tt eq_refl).
    unfold tr. simpl. unfold Library.checked. now rewrite Hm.
  - intros Hall. split.
    + rewrite (execute_connected tr T B w tt eq_refl).
      unfold tr. simpl. unfold Library.checked.
      now rewrite (missing_none _ _ Hall).
    + intros extra v Hextra.
      rewrite (execute_connected tr T _ w tt eq_refl).
      unfold tr. simpl. unfold Library.checked.
      rewrite missing_none
        by (intros n Hin; apply is_Some_insert_other, Hall, Hin).
      now rewrite used_insert_other.
Qed.

Lemma binding_is_checked_by_the_library_witness :
  let T := SQLAlchemyDemo.parameterized_query in
  let tr :=
    Library.sqlalchemy Library.bind_names (Sql.execute Everyloop.db)
      (Returned tt) in
  ("first_name" ∈ Library.bind_names T
   /\ (∅ : BindingMap) !! "first_name" = None
   /\ exists m,
        m ∈ Library.bind_names T /\ (∅ : BindingMap) !! m = None
        /\ exn_class (Library.statement_error m) = "StatementError"
        /\ Executor.execute tr (Executor.mkBound T ∅) world0
           = (Raised (Library.statement_error m),
              checkin (sent T ∅ (checkout world0))))
  /\ ((forall n, n ∈ Library.bind_names T ->
                 is_Some (({[ "first_name" := VStr "Frida" ]} : BindingMap)
                            !! n))
      /\ Executor.execute tr
           (Executor.mkBound T {[ "first_name" := VStr "Frida" ]}) world0
         = (Sql.execute Everyloop.db T
              (Library.used (Library.bind_names T)
                 {[ "first_name" := VStr "Frida" ]}),
            checkin (sent T {[ "first_name" := VStr "Frida" ]}
                       (checkout world0)))).
Proof.
  intros T tr.
  assert (Hin : "first_name" ∈ Library.bind_names T)
    by (unfold T; rewrite bind_names_parameterized_query;
        apply list_elem_of_singleton; reflexivity).
  assert (Hall : forall n, n ∈ Library.bind_names T ->
                   is_Some (({[ "first_name" := VStr "Frida" ]} : BindingMap)
                              !! n)).
  { intros n. unfold T. rewrite bind_names_parameterized_query.
    intros ->%list_elem_of_singleton. rewrite lookup_singleton_eq. eauto. }
  split.
  - split; [exact Hin|]. split; [reflexivity|].
    apply (proj1 (proj2 (binding_is_checked_by_the_library Library.bind_names
                           (Sql.execute Everyloop.db) T ∅ world0))
             "first_name" Hin).
    reflexivity.
  - split; [exact Hall|].
    apply (proj2 (proj2 (binding_is_checked_by_the_library Library.bind_names
                           (Sql.execute Everyloop.db) T
                           {[ "first_name" := VStr "Frida" ]} world0)) Hall).
Defined.

(** C4, refuted as stated.  In this template the colon and the name stand
    inside a string literal, so by the rule of the design text it has no
    placeholder, and the empty dictionary matches it exactly.  The library
    reads the name all the same and asks for its value: the execution
    fails, whatever the driver. *)
Lemma quoted_name_needs_a_value :
  dom (∅ : BindingMap) = Executor.spec_placeholders quoted_name_query
  /\ Library.bind_names quoted_name_query = ["first_name"]
  /\ forall driver,
       Executor.execute
         (Library.sqlalchemy Library.bind_names driver (Returned tt))
         (Executor.mkBound quoted_name_query ∅) world0
       = (Raised (Library.statement_error "first_name"),
          checkin (sent quoted_name_query ∅ (checkout world0))).
Proof.
  split; [|split].
  - unfold Executor.spec_placeholders.
    replace (Executor.spec_scan false None quoted_name_query)
      with (@nil string) by (vm_compute; reflexivity).
    simpl. apply dom_empty_L.
  - vm_compute. reflexivity.
  - intros driver.
    rewrite (execute_connected
               (Library.sqlalchemy Library.bind_names driver (Returned tt))
               quoted_name_query ∅ world0 tt eq_refl).
    reflexivity.
Qed.

(** C4, as the code has it.  When the names that the library reads in [T]
    are exactly the names bound by [B], the library's check passes and the
    driver is called with [T] and with [B] as it was given, no entry
    added, dropped or changed; the outcome of the execution is the
    driver's. *)
Theorem matching_names_pass_unchanged
    (names : string -> list string)
    (driver : string -> BindingMap -> outcome ResultSet)
    (T : string) (B : BindingMap) (w : world) :
  dom B = list_to_set (C := gset string) (names T) ->
  Executor.execute (Library.sqlalchemy names driver (Returned tt))
    (Executor.mkBound T B) w
  = (driver T B, checkin (sent T B (checkout w))).
Proof.
  intros Hd.
  rewrite (execute_connected (Library.sqlalchemy names driver (Returned tt))
             T B w tt eq_refl).
  simpl. unfold Library.checked.
  rewrite missing_none.
  - now rewrite (used_all _ _ Hd).
  - intros n Hn. apply elem_of_dom. rewrite Hd.
    now apply elem_of_list_to_set.
Qed.

Lemma matching_names_pass_unchanged_witness :
  dom ({[ "first_name" := VStr "Frida" ]} : BindingMap)
  = list_to_set (C := gset string)
      (Library.bind_names SQLAlchemyDemo.parameterized_query)
  /\ Executor.execute (Sql.reference Everyloop.db)
       (Executor.mkBound SQLAlchemyDemo.parameterized_query
          {[ "first_name" := VStr "Frida" ]}) world0
     = (Sql.execute Everyloop.db SQLAlchemyDemo.parameterized_query
          {[ "first_name" := VStr "Frida" ]},
        checkin (sent SQLAlchemyDemo.parameterized_query
                   {[ "first_name" := VStr "Frida" ]} (checkout world0))).
Proof.
  assert (Hd : dom ({[ "first_name" := VStr "Frida" ]} : BindingMap)
               = list_to_set (C := gset string)
                   (Library.bind_names SQLAlchemyDemo.parameterized_query)).
  { rewrite bind_names_parameterized_query, dom_singleton_L. simpl.
    symmetry. apply (right_id_L ∅ (∪)). }
  split; [exact Hd|].
  apply (matching_names_pass_unchanged Library.bind_names
           (Sql.execute Everyloop.db) SQLAlchemyDemo.parameterized_query
           {[ "first_name" := VStr "Frida" ]} world0 Hd).
Defined.

(** ** The recorded runs of cells 16 and 18 *)

(** On the fifty users that the notebook shows, the transport of the
    examples answers as the notebook recorded: the bound name Frida finds
    one row, and the statement of cell 18 with the pasted payload returns
    every row. *)
Example parameterized_cell_recorded :
  (SQLAlchemyDemo.parameterized_cell (Sql.reference Everyloop.db) "Frida"
     world0).2.(stdout)
  = [Repr [frida]].
Proof. vm_compute. reflexivity. Qed.

Example unparameterized_cell_recorded :
  (SQLAlchemyDemo.unparameterized_cell (Sql.reference Everyloop.db) "';--"
     world0).2.(stdout)
  = [Repr (Sql.tbl_rows Everyloop.Users)]
  /\ length (Sql.tbl_rows Everyloop.Users) = 50.
Proof. split; vm_compute; reflexivity. Qed.

(** ** Failures *)

Lemma print_printing (s : string) (w : world) :
  Py.print s w = (Returned tt, printing s w).
Proof. reflexivity. Qed.

(** C6, refuted as stated.  With the server out of reach the connect cell
    does not return an error value of any kind: it returns normally, and
    the error it met is the library's [OperationalError], which is neither
    of the two kinds of the taxonomy. *)
Lemma connect_failure_returns_no_error :
  tr_connect unreachable = Raised login_timeout
  /\ (SQLAlchemyDemo.connect_cell unreachable "publictest" publictest_url
        world0).1 = Returned tt
  /\ ~ (exists e,
          (SQLAlchemyDemo.connect_cell unreachable "publictest"
             publictest_url world0).1 = Raised e
          /\ classified e)
  /\ ~ classified login_timeout.
Proof.
  split; [reflexivity|]. split; [reflexivity|]. split.
  - intros (e & He & _). discriminate He.
  - intros [H|H]; discriminate H.
Qed.

(** C6, as the code has it.  No failure is turned into a classified error
    value; the original message survives in both places where a failure
    can arise.

    - When [create_engine] or [engine.connect()] raises an exception
      deriving from [Exception], the connect cell catches it and returns
      normally.  After its two opening lines it prints the heading
      [Error while connecting to database:] and then the original message
      [str(e)], unchanged; no connection stays checked out.
    - When [conn.execute] raises inside a [with] block, the cell does not
      catch it: the exception of the library, message included, reaches
      the caller as it is, after the connection has been given back. *)
Theorem failure_is_reported_not_classified (tr : Transport) (w : world) :
  (forall database_name unquoted_url e,
     exn_is_Exception e = true ->
     tr_create_engine tr = Raised e
     \/ (exists u, tr_create_engine tr = Returned u
                   /\ tr_connect tr = Raised e) ->
     SQLAlchemyDemo.connect_cell tr database_name unquoted_url w
     = (Returned tt,
        printing (exn_str e)
          (printing ("Error while connecting to database:" +:+ PyStr.nl)
             (printing (unquoted_url +:+ " " +:+ PyStr.nl)
                (printing "Connecting to database using URL string:" w)))))
  /\ (forall A Q (consume : ResultSet -> Py A) u e,
        tr_connect tr = Returned u ->
        tr_execute tr (Executor.bq_template Q) (Executor.bq_bindings Q)
          = Raised e ->
        Executor.execute_with tr Q consume w
        = (Raised e,
           checkin (sent (Executor.bq_template Q) (Executor.bq_bindings Q)
                      (checkout w)))).
Proof.
  split.
  - intros database_name unquoted_url e He Hfail.
    unfold SQLAlchemyDemo.connect_cell, Py.seq, Py.try_except_Exception,
      Py.call, with_connect.
    rewrite !print_printing.
    destruct Hfail as [Hc | (u & Hc & Hconn)].
    + rewrite Hc, He. rewrite !print_printing. reflexivity.
    + rewrite Hc, Hconn, He. rewrite !print_printing. reflexivity.
  - intros A Q consume u e Hc He.
    unfold Executor.execute_with, with_connect, Py.seq, conn_execute.
    now rewrite Hc, He.
Qed.

Lemma failure_is_reported_not_classified_witness :
  (exn_is_Exception login_timeout = true
   /\ (exists u, tr_create_engine unreachable = Returned u
                 /\ tr_connect unreachable = Raised login_timeout)
   /\ SQLAlchemyDemo.connect_cell unreachable "publictest" publictest_url
        world0
      = (Returned tt,
         printing (exn_str login_timeout)
           (printing ("Error while connecting to database:" +:+ PyStr.nl)
              (printing (publictest_url +:+ " " +:+ PyStr.nl)
                 (printing "Connecting to database using URL string:"
                    world0)))))
  /\ (tr_connect (Sql.reference Everyloop.db) = Returned tt
      /\ Sql.execute Everyloop.db
           (SQLAlchemyDemo.unparameterized_query "Frida") ∅
         = Raised (Sql.programming_error "Unclosed quotation mark")
      /\ Executor.execute (Sql.reference Everyloop.db)
           (Executor.mkBound (SQLAlchemyDemo.unparameterized_query "Frida") ∅)
           world0
         = (Raised (Sql.programming_error "Unclosed quotation mark"),
            checkin (sent (SQLAlchemyDemo.unparameterized_query "Frida") ∅
                       (checkout world0)))).
Proof.
  split.
  - split; [reflexivity|]. split; [exists tt; split; reflexivity|].
    apply (proj1 (failure_is_reported_not_classified unreachable world0)).
    + reflexivity.
    + right. exists tt. split; reflexivity.
  - split; [reflexivity|]. split; [vm_compute; reflexivity|].
    apply (proj2 (failure_is_reported_not_classified
                    (Sql.reference Everyloop.db) world0)
             ResultSet
             (Executor.mkBound (SQLAlchemyDemo.unparameterized_query "Frida") ∅)
             Py.ret tt).
    + reflexivity.
    + vm_compute. reflexivity.
Defined.

(** The text that the model writes is the text in the notebook. *)
Example connect_failure_recorded :
  text_of (SQLAlchemyDemo.connect_cell unreachable "publictest"
             publictest_url world0).2.(stdout)
  = "Connecting to database using URL string:
mssql+pyodbc://?odbc_connect=DRIVER=ODBC+Driver+17+for+SQL+Server;SERVER=192.168.2.223:1433;DATABASE=publictest;TrustServerCertificate=yes;UID=ITHS;PWD=ITHS; 

Error while connecting to database:

(pyodbc.OperationalError) ('HYT00', '[HYT00] [Microsoft][ODBC Driver 17 for SQL Server]Login timeout expired (0) (SQLDriverConnect)')
(Background on this error at: https://sqlalche.me/e/20/e3q8)
".
Proof. vm_compute. reflexivity. Qed.

(** An exception that does not derive from [Exception] passes through
    the connect cell. *)
Lemma connect_cell_passes_interrupt :
  (SQLAlchemyDemo.connect_cell
     (mkTransport (Raised keyboard_interrupt) (Returned tt)
        (fun _ _ => Returned (mkResultSet [] [])))
     "publictest" publictest_url world0).1
  = Raised keyboard_interrupt.
Proof. reflexivity. Qed.

(** ** search_books *)

Lemma try_except_returned {A} (body : Py A) handler (w w' : world) (a : A) :
  body w = (Returned a, w') ->
  Py.try_except_Exception body handler w = (Returned a, w').
Proof. intros H. unfold Py.try_except_Exception. now rewrite H. Qed.

Lemma try_except_caught {A} (body : Py A) handler (w w' : world) (e : exn) :
  body w = (Raised e, w') -> exn_is_Exception e = true ->
  Py.try_except_Exception body handler w = handler e w'.
Proof. intros H He. unfold Py.try_except_Exception. now rewrite H, He. Qed.

Lemma try_except_passed {A} (body : Py A) handler (w w' : world) (e : exn) :
  body w = (Raised e, w') -> exn_is_Exception e = false ->
  Py.try_except_Exception body handler w = (Raised e, w').
Proof. intros H He. unfold Py.try_except_Exception. now rewrite H, He. Qed.

Lemma for_each_inventories (session : Lab2.Session)
    (store : Lab2.Inventory -> Lab2.Store) (invs : list Lab2.Inventory)
    (w : world) :
  (forall i, In i invs ->
             Lab2.Inventory_store session i = Returned (Some (store i))) ->
  Py.for_each invs (Lab2.print_inventory session) w
  = (Returned tt,
     with_stdout w (stdout w ++ map (inventory_line store) invs)).
Proof.
  revert w. induction invs as [|i invs IH]; intros w Hst; simpl.
  - unfold Py.ret, with_stdout. now rewrite app_nil_r, world_eta.
  - unfold Py.seq at 1. unfold Lab2.print_inventory at 1.
    unfold Py.seq at 1. unfold Py.call.
    rewrite (Hst i) by now left. rewrite print_printing.
    rewrite IH by (intros j Hj; apply Hst; now right).
    unfold with_stdout, printing, inventory_line. simpl.
    now rewrite <- app_assoc.
Qed.

Lemma print_book_entries (session : Lab2.Session)
    (stock : Lab2.Book -> list Lab2.Inventory)
    (store : Lab2.Inventory -> Lab2.Store) (b : Lab2.Book) (w : world) :
  Lab2.Book_inventory session b = Returned (stock b) ->
  (forall i, In i (stock b) ->
             Lab2.Inventory_store session i = Returned (Some (store i))) ->
  Lab2.print_book session b w
  = (Returned tt, with_stdout w (stdout w ++ book_entries stock store b)).
Proof.
  intros Hb Hst. unfold Lab2.print_book.
  unfold Py.seq at 1. rewrite print_printing.
  unfold Py.seq at 1. rewrite print_printing.
  unfold Py.seq at 1. unfold Py.seq at 1. unfold Py.call. rewrite Hb.
  rewrite (for_each_inventories session store) by exact Hst.
  rewrite print_printing.
  unfold with_stdout, printing, book_entries, title_line, stores_line. simpl.
  now rewrite <- !app_assoc.
Qed.

Lemma for_each_books (session : Lab2.Session)
    (stock : Lab2.Book -> list Lab2.Inventory)
    (store : Lab2.Inventory -> Lab2.Store) (bs : list Lab2.Book) (w : world) :
  (forall b, In b bs -> Lab2.Book_inventory session b = Returned (stock b)) ->
  (forall b i, In b bs -> In i (stock b) ->
               Lab2.Inventory_store session i = Returned (Some (store i))) ->
  Py.for_each bs (Lab2.print_book session) w
  = (Returned tt,
     with_stdout w (stdout w ++ flat_map (book_entries stock store) bs)).
Proof.
  revert w. induction bs as [|b bs IH]; intros w Hb Hst; simpl.
  - unfold Py.ret, with_stdout. now rewrite app_nil_r, world_eta.
  - unfold Py.seq at 1.
    rewrite (print_book_entries session stock store b)
      by (first [apply Hb; now left | intros i Hi; apply (Hst b); auto; now left]).
    rewrite IH by (first [intros b' Hb'; apply Hb; now right
                         | intros b' i Hb' Hi; apply (Hst b'); auto; now right]).
    unfold with_stdout. simpl. now rewrite <- app_assoc.
Qed.

(** C10, refuted as stated.  An interrupt that arrives while the query
    runs is not an [Exception]; [search_books] does not catch it and it
    reaches the caller. *)
Lemma search_books_passes_interrupt :
  (Lab2.search_books interrupted "secret" world0).1
  = Raised keyboard_interrupt.
Proof. reflexivity. Qed.

(** C10, as the code has it.  For every input string and every behaviour
    of the session, [search_books] either returns [None] or lets through
    an exception that does not derive from [Exception]; nothing else
    reaches the caller.  When the query finds no book, the not-found
    message is printed and the function returns.  When an exception
    deriving from [Exception] is raised in the query or while the result
    is walked, it is caught, its message is printed after what was
    already written, and the function returns.  An exception that does
    not derive from [Exception] is not caught: it reaches the caller as it
    was raised, and no message is printed for it. *)
Theorem search_books_catches_Exception (session : Lab2.Session)
    (title_search : string) (w : world) :
  ((Lab2.search_books session title_search w).1 = Returned tt
   \/ exists e,
        (Lab2.search_books session title_search w).1 = Raised e
        /\ exn_is_Exception e = false
        /\ (Lab2.search_books_try session title_search w).1 = Raised e)
  /\ (Lab2.search_results session title_search = Returned [] ->
      Lab2.search_books session title_search w
      = (Returned tt,
         printing "No books found matching the search criteria." w))
  /\ (forall e w',
        Lab2.search_books_try session title_search w = (Raised e, w') ->
        exn_is_Exception e = true ->
        Lab2.search_books session title_search w
        = (Returned tt, printing ("An error occurred: " +:+ exn_str e) w'))
  /\ (forall e w',
        Lab2.search_books_try session title_search w = (Raised e, w') ->
        exn_is_Exception e = false ->
        Lab2.search_books session title_search w = (Raised e, w')).
Proof.
  split; [|split; [|split]].
  - unfold Lab2.search_books.
    destruct (Lab2.search_books_try session title_search w) as [[[]|e] w']
      eqn:Hbody.
    + left. now rewrite (try_except_returned _ _ _ _ _ Hbody).
    + destruct (exn_is_Exception e) eqn:He.
      * left. now rewrite (try_except_caught _ _ _ _ _ Hbody He).
      * right. exists e.
        now rewrite (try_except_passed _ _ _ _ _ Hbody He).
  - intros Hres. unfold Lab2.search_books.
    apply try_except_returned.
    unfold Lab2.search_books_try, Py.seq, Py.call. now rewrite Hres.
  - intros e w' Hbody He. unfold Lab2.search_books.
    now rewrite (try_except_caught _ _ _ _ _ Hbody He).
  - intros e w' Hbody He. unfold Lab2.search_books.
    now apply try_except_passed.
Qed.

Lemma search_books_catches_Exception_witness :
  (Lab2.search_results Lab2Data.session "atlas" = Returned []
   /\ Lab2.search_books Lab2Data.session "atlas" world0
      = (Returned tt,
         printing "No books found matching the search criteria." world0))
  /\ (Lab2.search_books_try offline "atlas" world0
        = (Raised login_timeout, world0)
      /\ exn_is_Exception login_timeout = true
      /\ Lab2.search_books offline "atlas" world0
         = (Returned tt,
            printing ("An error occurred: " +:+ exn_str login_timeout)
                     world0))
  /\ (Lab2.search_books_try interrupted "atlas" world0
        = (Raised keyboard_interrupt, world0)
      /\ exn_is_Exception keyboard_interrupt = false
      /\ Lab2.search_books interrupted "atlas" world0
         = (Raised keyboard_interrupt, world0)).
Proof.
  split; [|split].
  - split; [vm_compute; reflexivity|].
    apply (proj1 (proj2 (search_books_catches_Exception Lab2Data.session
                           "atlas" world0))).
    vm_compute. reflexivity.
  - split; [reflexivity|]. split; [reflexivity|].
    apply (proj1 (proj2 (proj2 (search_books_catches_Exception offline
                                  "atlas" world0)))); reflexivity.
  - split; [reflexivity|]. split; [reflexivity|].
    apply (proj2 (proj2 (proj2 (search_books_catches_Exception interrupted
                                  "atlas" world0)))); reflexivity.
Defined.

(** The recorded search: the two books and their stock, as printed. *)
Example search_books_recorded :
  text_of (Lab2.search_books Lab2Data.session "secret" world0).2.(stdout)
  = "Title: The Secret Garden, ISBN: 978-0-316-76948-0
Stores and availability:
  Store: Booktopia, Amount: 48
  Store: Readmore Books, Amount: 35
  Store: Novel Ideas, Amount: 0
  Store: The Reading Room, Amount: 81
  Store: Page Turners, Amount: 106

Title: Secrets of the Past, ISBN: 978-1-5040-5104-2
Stores and availability:
  Store: Booktopia, Amount: 71
  Store: Readmore Books, Amount: 25
  Store: Novel Ideas, Amount: 91
  Store: The Reading Room, Amount: 0
  Store: Page Turners, Amount: 0

".
Proof. vm_compute. reflexivity. Qed.

(** ** What search_books asks for *)

(** The LIKE of the stand-in has the properties of LIKE that the search
    relies on; they are used to instantiate the theorem below. *)
Lemma like_percent (p s : string) :
  Sql.like_match (String "%" p) s =
  Sql.like_match p s ||
  match s with
  | EmptyString => false
  | String _ r => Sql.like_match (String "%" p) r
  end.
Proof. destruct s; reflexivity. Qed.

Lemma like_percent_all (s : string) : Sql.like_match "%" s = true.
Proof.
  induction s as [|c r IH]; [reflexivity|].
  rewrite like_percent. rewrite IH. apply orb_true_r.
Qed.

Lemma like_percent_l (p s : string) :
  Sql.like_match p s = true -> Sql.like_match (String "%" p) s = true.
Proof. intros H. rewrite like_percent, H. reflexivity. Qed.

Lemma like_underscore_percent (c : ascii) (t : string) :
  Sql.like_match "%_%" (String c t) = true.
Proof.
  rewrite like_percent.
  change (Sql.like_match "_%" (String c t)) with (Sql.like_match "%" t).
  now rewrite like_percent_all.
Qed.

Lemma like_all_3 (t : string) : Sql.like_match "%%%" t = true.
Proof. do 2 apply like_percent_l. apply like_percent_all. Qed.

(** What [search_books] writes when the query returns and every lookup of
    stock and store succeeds. *)
Lemma search_books_listing (session : Lab2.Session) (s : string)
    (bs : list Lab2.Book) (stock : Lab2.Book -> list Lab2.Inventory)
    (store : Lab2.Inventory -> Lab2.Store) (w : world) :
  Lab2.query_Book_Title_ilike session ("%" +:+ s +:+ "%") = Returned bs ->
  (forall b, In b bs -> Lab2.Book_inventory session b = Returned (stock b)) ->
  (forall b i, In b bs -> In i (stock b) ->
               Lab2.Inventory_store session i = Returned (Some (store i))) ->
  Lab2.search_books session s w
  = (Returned tt, with_stdout w (stdout w ++ listing stock store bs)).
Proof.
  intros Hq Hb Hst. unfold Lab2.search_books. apply try_except_returned.
  unfold Lab2.search_books_try. unfold Py.seq at 1. unfold Py.call.
  unfold Lab2.search_results, Lab2.search_pattern. rewrite Hq.
  destruct bs as [|b bs]; [reflexivity|].
  now apply for_each_books.
Qed.

(** C9.  For every input [s], [search_books] asks for the books whose
    title is LIKE the pattern made of [%], then [s] as typed, then [%]:
    nothing in [s] is escaped.  With a session over the rows [books] whose
    server filters with the predicate [like], the books listed are exactly
    those that [like] selects for that pattern, and the not-found message
    is printed when there is none.  The wildcards of [s] therefore act as
    wildcards.  Where [like] lets a pattern of percent signs match every
    title, the input [%] lists every book that has a title; where it lets
    an underscore between percent signs match every title of at least one
    character and no empty one, the input [_] lists every book whose title
    is not empty, with or without an underscore in it. *)
Theorem search_books_pattern_unescaped (session : Lab2.Session)
    (like : string -> string -> bool) (books : list Lab2.Book)
    (stock : Lab2.Book -> list Lab2.Inventory)
    (store : Lab2.Inventory -> Lab2.Store) (s : string) (w : world) :
  answers_ilike like books session ->
  (forall b, In b books ->
             Lab2.Book_inventory session b = Returned (stock b)) ->
  (forall b i, In b books -> In i (stock b) ->
               Lab2.Inventory_store session i = Returned (Some (store i))) ->
  Lab2.search_books session s w
  = (Returned tt,
     with_stdout w
       (stdout w
        ++ listing stock store
             (List.filter (title_like like ("%" +:+ s +:+ "%")) books)))
  /\ ((forall t, like "%%%" t = true) ->
      Lab2.search_books session "%" w
      = (Returned tt,
         with_stdout w
           (stdout w ++ listing stock store (List.filter has_title books))))
  /\ ((forall c t, like "%_%" (String c t) = true) ->
      like "%_%" EmptyString = false ->
      Lab2.search_books session "_" w
      = (Returned tt,
         with_stdout w
           (stdout w
            ++ listing stock store (List.filter has_nonempty_title books)))).
Proof.
  intros Hans Hb Hst.
  assert (Hlist : forall s',
            Lab2.search_books session s' w
            = (Returned tt,
               with_stdout w
                 (stdout w
                  ++ listing stock store
                       (List.filter (title_like like ("%" +:+ s' +:+ "%"))
                          books)))).
  { intros s'. apply search_books_listing.
    - apply Hans.
    - intros b Hin. apply filter_In in Hin as [Hin _]. now apply Hb.
    - intros b i Hin Hi. apply filter_In in Hin as [Hin _].
      now apply (Hst b). }
  split; [apply Hlist|]. split.
  - intros Hall. rewrite Hlist.
    change ("%" +:+ "%" +:+ "%") with "%%%".
    rewrite (filter_ext_bool (title_like like "%%%") has_title books);
      [reflexivity|].
    intros b. unfold title_like, has_title.
    destruct (Lab2.Book_Title b); try reflexivity. apply Hall.
  - intros Hone Hnone. rewrite Hlist.
    change ("%" +:+ "_" +:+ "%") with "%_%".
    rewrite (filter_ext_bool (title_like like "%_%") has_nonempty_title
               books); [reflexivity|].
    intros b. unfold title_like, has_nonempty_title.
    destruct (Lab2.Book_Title b) as [[|c t]| |]; try reflexivity.
    + exact Hnone.
    + apply Hone.
Qed.

Lemma recorded_session_answers :
  answers_ilike Sql.ilike_match Lab2Data.books Lab2Data.session.
Proof.
  intros p. reflexivity.
Qed.

Lemma recorded_session_stock (b : Lab2.Book) :
  In b Lab2Data.books ->
  Lab2.Book_inventory Lab2Data.session b = Returned (recorded_stock b).
Proof. reflexivity. Qed.

Lemma recorded_session_store (b : Lab2.Book) (i : Lab2.Inventory) :
  In b Lab2Data.books -> In i (recorded_stock b) ->
  Lab2.Inventory_store Lab2Data.session i = Returned (Some (recorded_store i)).
Proof.
  intros Hb Hi. simpl in Hb. destruct Hb as [<-|[<-|[]]];
    vm_compute in Hi;
    repeat (destruct Hi as [<-|Hi]; [vm_compute; reflexivity|]);
    destruct Hi.
Qed.

Lemma ilike_all_3 (t : string) : Sql.ilike_match "%%%" t = true.
Proof. apply like_all_3. Qed.

Lemma search_books_pattern_unescaped_witness :
  answers_ilike Sql.ilike_match Lab2Data.books Lab2Data.session
  /\ (forall t, Sql.ilike_match "%%%" t = true)
  /\ (forall c t, Sql.ilike_match "%_%" (String c t) = true)
  /\ Sql.ilike_match "%_%" EmptyString = false
  /\ Lab2.search_books Lab2Data.session "atlas" world0
     = (Returned tt, with_stdout world0 [not_found_line])
  /\ Lab2.search_books Lab2Data.session "%" world0
     = (Returned tt,
        with_stdout world0
          (flat_map (book_entries recorded_stock recorded_store)
             Lab2Data.books))
  /\ Lab2.search_books Lab2Data.session "_" world0
     = (Returned tt,
        with_stdout world0
          (flat_map (book_entries recorded_stock recorded_store)
             Lab2Data.books)).
Proof.
  assert (Hone : forall c t, Sql.ilike_match "%_%" (String c t) = true)
    by (intros c t; apply like_underscore_percent).
  split; [exact recorded_session_answers|].
  split; [exact ilike_all_3|]. split; [exact Hone|].
  split; [reflexivity|].
  split; [|split].
  - apply (proj1 (search_books_pattern_unescaped Lab2Data.session
                    Sql.ilike_match Lab2Data.books recorded_stock
                    recorded_store "atlas" world0 recorded_session_answers
                    recorded_session_stock recorded_session_store)).
  - apply (proj1 (proj2 (search_books_pattern_unescaped Lab2Data.session
                           Sql.ilike_match Lab2Data.books recorded_stock
                           recorded_store "%" world0 recorded_session_answers
                           recorded_session_stock recorded_session_store))
             ilike_all_3).
  - apply (proj2 (proj2 (search_books_pattern_unescaped Lab2Data.session
                           Sql.ilike_match Lab2Data.books recorded_stock
                           recorded_store "_" world0 recorded_session_answers
                           recorded_session_stock recorded_session_store))
             Hone eq_refl).
Defined.

(** ** The table of cell 9 *)

Lemma for_each_print_end {A} (f : A -> string) (xs : list A) (w : world) :
  Py.for_each xs (fun x => Py.print_end (f x) EmptyString) w
  = (Returned tt,
     mkWorld (stdout w ++ map (fun x => Text (f x)) xs)
             (acquired w) (released w) (wire w)).
Proof.
  revert w. induction xs as [|x xs IH]; intros w; simpl.
  - unfold Py.ret. now rewrite app_nil_r, world_eta.
  - unfold Py.seq, Py.print_end, Py.write. rewrite IH. simpl.
    now rewrite append_empty_r, <- app_assoc.
Qed.

Lemma for_each_fields (row : list string) (w : world) :
  Py.for_each (map VStr row)
    (fun field =>
       let! s := Py.call (SQLAlchemyDemo.field_ljust 20 field) in
       Py.print_end s EmptyString) w
  = (Returned tt,
     mkWorld (stdout w ++ map (fun f => Text (PyStr.ljust 20 f)) row)
             (acquired w) (released w) (wire w)).
Proof.
  revert w. induction row as [|f row IH]; intros w; simpl.
  - unfold Py.ret. now rewrite app_nil_r, world_eta.
  - unfold Py.seq at 1. unfold Py.seq at 1. unfold Py.call. simpl.
    unfold Py.print_end, Py.write. rewrite IH. simpl.
    now rewrite append_empty_r, <- app_assoc.
Qed.

Lemma for_each_rows (rows : list (list string)) (w : world) :
  Py.for_each (map (map VStr) rows)
    (fun row =>
       Py.for_each row
         (fun field =>
            let! s := Py.call (SQLAlchemyDemo.field_ljust 20 field) in
            Py.print_end s EmptyString) >>
       Py.print EmptyString) w
  = (Returned tt,
     mkWorld
       (stdout w ++
        flat_map
          (fun row =>
             map (fun f => Text (PyStr.ljust 20 f)) row ++ [Text PyStr.nl])
          rows)
       (acquired w) (released w) (wire w)).
Proof.
  revert w. induction rows as [|row rows IH]; intros w; simpl.
  - unfold Py.ret. now rewrite app_nil_r, world_eta.
  - unfold Py.seq at 1. unfold Py.seq at 1. rewrite for_each_fields.
    rewrite print_printing, IH. simpl. now rewrite <- !app_assoc.
Qed.

(** X3.  What cell 9 does with a result whose fields are strings and
    whose column names are of ASCII characters: the column names are
    written in the order of [result.keys()], in capitals, and every row
    after them field by field in the order of the row, each entry padded
    to 20 characters; the connection is given back. *)
Lemma keys_cell_prints_in_order (tr : Transport) (ks : list string)
    (rows : list (list string)) (w : world) u :
  tr_connect tr = Returned u ->
  tr_execute tr SQLAlchemyDemo.query ∅
    = Returned (mkResultSet ks (map (map VStr) rows)) ->
  Forall (fun k => PyStr.is_ascii k = true) ks ->
  SQLAlchemyDemo.keys_cell tr w
  = (Returned tt,
     mkWorld (stdout w ++ table_entries ks rows)
             (S (acquired w)) (S (released w))
             (wire w ++ [(SQLAlchemyDemo.query, ∅)])).
Proof.
  intros Hc He _.
  unfold SQLAlchemyDemo.keys_cell, with_connect. rewrite Hc.
  unfold Py.seq at 1. unfold conn_execute. rewrite He.
  unfold Py.seq at 1. unfold keys, fetchall. simpl rs_keys. simpl rs_rows.
  rewrite for_each_print_end.
  unfold Py.seq at 1. rewrite print_printing, for_each_rows.
  unfold table_entries, printing, checkin. simpl.
  now rewrite <- !app_assoc.
Qed.

(** A library that answers every statement with the rows that cells 5
    and 9 recorded for [query]; the text written is the text in the
    notebook. *)
Lemma keys_cell_recorded :
  let tr :=
    mkTransport (Returned tt) (Returned tt)
      (fun _ _ =>
         Returned
           (mkResultSet ["Id"; "FirstName"; "LastName"; "Email"]
              [Everyloop.user_row "741109-2058" "Alexander" "Dahl"
                 "alexander.dahl@telia.se";
               Everyloop.user_row "530720-7675" "Alvin" "Lindholm"
                 "alvin.lindholm@gmail.com";
               Everyloop.user_row "820624-3075" "Anders" "Hansson"
                 "anders.hansson@hotmail.com";
               Everyloop.user_row "751123-9724" "Anne" "Åkerman"
                 "anne.akerman@hotmail.com";
               Everyloop.user_row "620925-4245" "Annette" "Bergfalk"
                 "annette.bergfalk@telia.se"])) in
  text_of (SQLAlchemyDemo.keys_cell tr world0).2.(stdout)
  = "ID                  FIRSTNAME           LASTNAME            EMAIL               
741109-2058         Alexander           Dahl                alexander.dahl@telia.se
530720-7675         Alvin               Lindholm            alvin.lindholm@gmail.com
820624-3075         Anders              Hansson             anders.hansson@hotmail.com
751123-9724         Anne                Åkerman             anne.akerman@hotmail.com
620925-4245         Annette             Bergfalk            annette.bergfalk@telia.se
".
Proof. vm_compute. reflexivity. Qed.

(** The statement text of cell 13 for the recorded search. *)
Lemma unsafe_query_recorded :
  SQLAlchemyDemo.unsafe_query "stock"
  = "
select top 10
    IATA, 
    [Airport name] as 'name', 
    [Location served] as 'location' 
from 
    airports 
where 
    [Location served] like '%stock%'".
Proof. reflexivity. Qed.

(** * Further properties of the notebooks *)

(** ** The connect cell *)

Lemma conn_neutral_balanced {A} (m : Py A) : conn_neutral m -> balanced m.
Proof. intros H w Hw. destruct (H w) as [Ha Hr]. congruence. Qed.

Lemma balanced_seq {A B} (m : Py A) (k : A -> Py B) :
  balanced m -> (forall a, balanced (k a)) -> balanced (Py.seq m k).
Proof.
  intros Hm Hk w Hw. unfold Py.seq.
  specialize (Hm w Hw). destruct (m w) as [[a|e] w1]; simpl in *.
  - apply Hk. exact Hm.
  - exact Hm.
Qed.

Lemma balanced_try {A} (body : Py A) (handler : exn -> Py A) :
  balanced body -> (forall e, balanced (handler e)) ->
  balanced (Py.try_except_Exception body handler).
Proof.
  intros Hb Hh w Hw. unfold Py.try_except_Exception.
  specialize (Hb w Hw). destruct (body w) as [[a|e] w1]; simpl in *; auto.
  destruct (exn_is_Exception e); simpl; auto. now apply Hh.
Qed.

Lemma only_prints_balanced {A} (m : Py A) : only_prints m -> balanced m.
Proof. intros H. now apply conn_neutral_balanced, only_prints_conn_neutral. Qed.

Lemma connect_cell_balanced (tr : Transport) (database_name url : string) :
  balanced (SQLAlchemyDemo.connect_cell tr database_name url).
Proof.
  unfold SQLAlchemyDemo.connect_cell.
  do 2 apply balanced_after_print.
  apply balanced_try.
  - apply balanced_seq; [apply only_prints_balanced; auto with py|].
    intros _. apply with_connect_balanced, only_prints_conn_neutral.
    auto with py.
  - intros e. apply only_prints_balanced. auto with py.
Qed.

(** X1.  When [create_engine] and [engine.connect()] both succeed, the
    connect cell prints its two opening lines and the success line naming
    the database, returns, and has given back the one connection it
    checked out. *)
Theorem connect_success_is_printed (tr : Transport)
    (database_name unquoted_url : string) (w : world) u1 u2 :
  tr_create_engine tr = Returned u1 ->
  tr_connect tr = Returned u2 ->
  SQLAlchemyDemo.connect_cell tr database_name unquoted_url w
  = (Returned tt,
     checkin
       (printing ("Successfully connected to " +:+ database_name +:+ "!")
          (checkout
             (printing (unquoted_url +:+ " " +:+ PyStr.nl)
                (printing "Connecting to database using URL string:" w))))).
Proof.
  intros Hc Hconn.
  unfold SQLAlchemyDemo.connect_cell, Py.seq, Py.try_except_Exception,
    Py.call, with_connect.
  rewrite !print_printing, Hc, Hconn. reflexivity.
Qed.

Lemma connect_success_is_printed_witness :
  tr_create_engine (Sql.reference Everyloop.db) = Returned tt
  /\ tr_connect (Sql.reference Everyloop.db) = Returned tt
  /\ text_of
       (SQLAlchemyDemo.connect_cell (Sql.reference Everyloop.db) "Lab2"
          "mssql+pyodbc://" world0).2.(stdout)
     = "Connecting to database using URL string:
mssql+pyodbc:// 

Successfully connected to Lab2!
".
Proof.
  split; [reflexivity|]. split; [reflexivity|].
  rewrite (connect_success_is_printed (Sql.reference Everyloop.db)
             "Lab2" _ world0 tt tt eq_refl eq_refl).
  reflexivity.
Defined.

(** X2.  Whatever the library does, the connect cell leaves no connection
    checked out, and the only exceptions it lets through are those that do
    not derive from [Exception]; in every other case it returns. *)
Theorem connect_cell_contains_failures (tr : Transport)
    (database_name unquoted_url : string) (w : world) :
  (acquired w = released w ->
   acquired (SQLAlchemyDemo.connect_cell tr database_name unquoted_url w).2
   = released (SQLAlchemyDemo.connect_cell tr database_name unquoted_url w).2)
  /\ ((SQLAlchemyDemo.connect_cell tr database_name unquoted_url w).1
      = Returned tt
      \/ exists e,
           (SQLAlchemyDemo.connect_cell tr database_name unquoted_url w).1
           = Raised e
           /\ exn_is_Exception e = false
           /\ (tr_create_engine tr = Raised e \/ tr_connect tr = Raised e)).
Proof.
  split; [apply connect_cell_balanced|].
  unfold SQLAlchemyDemo.connect_cell, Py.seq, Py.try_except_Exception,
    Py.call, with_connect.
  rewrite !print_printing.
  destruct (tr_create_engine tr) as [u1|e1] eqn:Hc.
  - destruct (tr_connect tr) as [u2|e2] eqn:Hconn.
    + now left.
    + destruct (exn_is_Exception e2) eqn:He.
      * rewrite ?print_printing. now left.
      * right. exists e2. auto.
  - destruct (exn_is_Exception e1) eqn:He.
    + rewrite ?print_printing. now left.
    + right. exists e1. auto.
Qed.

(** ** Running the notebook *)

Lemma run_all_balanced (cells : list (Py unit)) :
  Forall balanced cells -> balanced (run_all cells).
Proof.
  unfold run_all. induction 1 as [|c cs Hc _ IH]; simpl.
  - intros w Hw. exact Hw.
  - apply balanced_seq; [exact Hc | intros _; exact IH].
Qed.

Lemma iterate_cell_balanced (tr : Transport) :
  balanced (SQLAlchemyDemo.iterate_cell tr).
Proof.
  apply with_connect_balanced, execute_then_neutral. intros r.
  apply only_prints_for_each. intros row.
  repeat (apply only_prints_seq; [auto with py|]; intros ?).
  auto with py.
Qed.

(** X19.  Running the database cells of SQLAlchemyDemo.ipynb one after
    the other, with any values typed in and any behaviour of the library,
    up to the end or up to the first cell that raises, leaves no connection
    checked out. *)
Theorem notebook_run_releases_connections (tr : Transport)
    (url search1 name1 name2 search2 : string) (w : world) :
  acquired w = released w ->
  acquired (run_all (demo_cells tr url search1 name1 name2 search2) w).2
  = released (run_all (demo_cells tr url search1 name1 name2 search2) w).2.
Proof.
  apply run_all_balanced. unfold demo_cells.
  destruct (cells_release_connection tr search1) as (Hk & Hu & _).
  destruct (cells_release_connection tr name1) as (_ & _ & Hp & _).
  destruct (cells_release_connection tr name2) as (_ & _ & _ & Hn & _).
  destruct (cells_release_connection tr search2) as (_ & _ & _ & _ & Hs).
  repeat constructor; auto using connect_cell_balanced, iterate_cell_balanced.
Qed.

Lemma notebook_run_releases_connections_witness :
  acquired world0 = released world0
  /\ acquired
       (run_all (demo_cells (Sql.reference Everyloop.db) "url" "stock"
                   "Frida" "Frida" "stock") world0).2
     = released
         (run_all (demo_cells (Sql.reference Everyloop.db) "url" "stock"
                     "Frida" "Frida" "stock") world0).2.
Proof.
  split; [reflexivity|].
  apply (notebook_run_releases_connections (Sql.reference Everyloop.db)
           "url" "stock" "Frida" "Frida" "stock" world0).
  reflexivity.
Defined.

(** ** The tables of cell 9 and of the cell under Fetch data *)

Lemma keys_cell_prints_in_order_witness :
  let rs := [["741109-2058"; "Alexander"; "Dahl"; "alexander.dahl@telia.se"];
             ["751123-9724"; "Anne"; "Åkerman"; "anne.akerman@hotmail.com"]] in
  let ks := ["Id"; "FirstName"; "LastName"; "Email"] in
  let tr :=
    mkTransport (Returned tt) (Returned tt)
      (fun _ _ => Returned (mkResultSet ks (map (map VStr) rs))) in
  tr_connect tr = Returned tt
  /\ Forall (fun k => PyStr.is_ascii k = true) ks
  /\ SQLAlchemyDemo.keys_cell tr world0
     = (Returned tt,
        mkWorld (table_entries ks rs) 1 1 [(SQLAlchemyDemo.query, ∅)]).
Proof.
  intros rs ks tr.
  assert (Hks : Forall (fun k => PyStr.is_ascii k = true) ks)
    by (repeat constructor).
  split; [reflexivity|]. split; [exact Hks|].
  apply (keys_cell_prints_in_order tr ks rs world0 tt eq_refl eq_refl Hks).
Defined.

Lemma for_each_fields_fail (pre : list string) (v : value)
    (post : list value) (w : world) :
  (forall s, v <> VStr s) ->
  exists e,
    exn_class e = "AttributeError" /\ exn_is_Exception e = true
    /\ Py.for_each (map VStr pre ++ v :: post)
         (fun field =>
            let! s := Py.call (SQLAlchemyDemo.field_ljust 20 field) in
            Py.print_end s EmptyString) w
       = (Raised e,
          with_stdout w
            (stdout w ++ map (fun f => Text (PyStr.ljust 20 f)) pre)).
Proof.
  intros Hv. revert w. induction pre as [|f pre IH]; intros w; simpl.
  - assert (Hw : with_stdout w (stdout w ++ []) = w)
      by (unfold with_stdout; now rewrite app_nil_r, world_eta).
    rewrite Hw. destruct v as [s| |].
    + now destruct (Hv s).
    + eexists. split; [|split]; [| |reflexivity]; reflexivity.
    + eexists. split; [|split]; [| |reflexivity]; reflexivity.
  - unfold Py.seq at 1. unfold Py.seq at 1. unfold Py.call. simpl.
    unfold Py.print_end, Py.write.
    match goal with
    | |- context [Py.for_each _ _ ?w0] =>
        destruct (IH w0) as (e & Hc & He & Heq)
    end.
    exists e. repeat split; auto. etransitivity; [exact Heq|].
    unfold with_stdout. simpl.
    now rewrite append_empty_r, <- app_assoc.
Qed.

(** X4.  Cell 9 calls [ljust] on the field itself.  The first field that
    is not a string (NULL, a number), in whichever row it stands, therefore
    stops the cell with an [AttributeError]: the header, the rows before
    that row and the fields before that field have been printed, the rest
    of the table is not, and the connection has been given back all the
    same.  The column names are of ASCII characters. *)
Theorem keys_cell_stops_at_non_string (tr : Transport) (ks : list string)
    (good : list (list string)) (pre : list string) (v : value)
    (post : list value) (rest : list (list value)) (w : world) u :
  tr_connect tr = Returned u ->
  tr_execute tr SQLAlchemyDemo.query ∅
    = Returned
        (mkResultSet ks
           (map (map VStr) good ++ (map VStr pre ++ v :: post) :: rest)) ->
  Forall (fun k => PyStr.is_ascii k = true) ks ->
  (forall s, v <> VStr s) ->
  exists e,
    exn_class e = "AttributeError"
    /\ SQLAlchemyDemo.keys_cell tr w
       = (Raised e,
          mkWorld
            (stdout w
             ++ map (fun k => Text (PyStr.ljust 20 (PyStr.upper k))) ks
             ++ [Text PyStr.nl]
             ++ flat_map row_entries good
             ++ map (fun f => Text (PyStr.ljust 20 f)) pre)
            (S (acquired w)) (S (released w))
            (wire w ++ [(SQLAlchemyDemo.query, ∅)])).
Proof.
  intros Hc He _ Hv.
  unfold SQLAlchemyDemo.keys_cell, with_connect. rewrite Hc.
  unfold Py.seq at 1. unfold conn_execute. rewrite He.
  unfold Py.seq at 1. unfold keys, fetchall. simpl rs_keys. simpl rs_rows.
  rewrite for_each_print_end.
  unfold Py.seq at 1. rewrite print_printing.
  rewrite for_each_app. unfold Py.seq at 1. rewrite for_each_rows.
  simpl Py.for_each. unfold Py.seq at 1. unfold Py.seq at 1.
  match goal with
  | |- context [Py.for_each (map VStr pre ++ v :: post) ?body ?w0] =>
      destruct (for_each_fields_fail pre v post w0 Hv) as (e & Hcl & _ & Heq)
  end.
  exists e. split; [exact Hcl|]. rewrite Heq.
  unfold with_stdout, printing, checkin, row_entries. simpl.
  now rewrite <- !app_assoc.
Qed.

Lemma keys_cell_stops_at_non_string_witness :
  let ks := ["Id"; "FirstName"] in
  let tr :=
    mkTransport (Returned tt) (Returned tt)
      (fun _ _ =>
         Returned
           (mkResultSet ks
              (map (map VStr) [["741109-2058"; "Alexander"]]
               ++ (map VStr ["530720-7675"] ++ VNull :: [])
                  :: [[VStr "820624-3075"; VStr "Anders"]]))) in
  tr_connect tr = Returned tt
  /\ Forall (fun k => PyStr.is_ascii k = true) ks
  /\ (forall s, VNull <> VStr s)
  /\ exists e,
       exn_class e = "AttributeError"
       /\ SQLAlchemyDemo.keys_cell tr world0
          = (Raised e,
             mkWorld
               ([] ++ map (fun k => Text (PyStr.ljust 20 (PyStr.upper k))) ks
                ++ [Text PyStr.nl]
                ++ flat_map row_entries [["741109-2058"; "Alexander"]]
                ++ map (fun f => Text (PyStr.ljust 20 f)) ["530720-7675"])
               1 1 [(SQLAlchemyDemo.query, ∅)]).
Proof.
  intros ks tr.
  assert (Hks : Forall (fun k => PyStr.is_ascii k = true) ks)
    by (repeat constructor).
  split; [reflexivity|]. split; [exact Hks|]. split; [discriminate|].
  apply (keys_cell_stops_at_non_string tr ks [["741109-2058"; "Alexander"]]
           ["530720-7675"] VNull [] [[VStr "820624-3075"; VStr "Anders"]]
           world0 tt);
    [reflexivity | reflexivity | exact Hks | discriminate].
Defined.

Lemma for_each_print_end_sep {A} (f : A -> string) (e : string)
    (xs : list A) (w : world) :
  Py.for_each xs (fun x => Py.print_end (f x) e) w
  = (Returned tt,
     with_stdout w (stdout w ++ map (fun x => Text (f x +:+ e)) xs)).
Proof.
  revert w. induction xs as [|x xs IH]; intros w; simpl.
  - unfold Py.ret, with_stdout. now rewrite app_nil_r, world_eta.
  - unfold Py.seq, Py.print_end, Py.write. rewrite IH.
    unfold with_stdout. simpl. now rewrite <- app_assoc.
Qed.

Lemma for_each_fetch_rows (rows : list (list value)) (w : world) :
  Py.for_each rows
    (fun row =>
       Py.for_each row
         (fun field => Py.print_end (PyStr.ljust 20 (str field)) " ") >>
       Py.print EmptyString) w
  = (Returned tt,
     with_stdout w
       (stdout w ++
        flat_map
          (fun row =>
             map (fun f => Text (PyStr.ljust 20 (str f) +:+ " ")) row
             ++ [Text PyStr.nl])
          rows)).
Proof.
  revert w. induction rows as [|row rows IH]; intros w; simpl.
  - unfold Py.ret, with_stdout. now rewrite app_nil_r, world_eta.
  - unfold Py.seq at 1. unfold Py.seq at 1.
    rewrite (for_each_print_end_sep (fun f => PyStr.ljust 20 (str f)) " ").
    rewrite print_printing, IH. unfold with_stdout, printing. simpl.
    now rewrite <- !app_assoc.
Qed.

(** X5.  The cell under Fetch data prints [str(field)], so it accepts
    every field: for any result, with NULLs and numbers in it, the cell
    returns, having printed the statement, the column names in capitals
    and every field of every row, each padded to 20 characters and
    followed by a blank; the connection is given back.  The column names
    are of ASCII characters. *)
Theorem fetch_data_cell_prints_every_field (tr : Transport)
    (query_text params_text : string) (params : BindingMap)
    (result : ResultSet) (w : world) u :
  tr_connect tr = Returned u ->
  tr_execute tr query_text params = Returned result ->
  Forall (fun k => PyStr.is_ascii k = true) (rs_keys result) ->
  Demo2.fetch_data_cell tr query_text params_text params w
  = (Returned tt,
     mkWorld
       (stdout
          (printing
             (query_text +:+ PyStr.nl +:+ PyStr.nl +:+ params_text
              +:+ PyStr.nl) w)
        ++ fetch_entries (rs_keys result) (rs_rows result))
       (S (acquired w)) (S (released w))
       (wire w ++ [(query_text, params)])).
Proof.
  intros Hc He _.
  unfold Demo2.fetch_data_cell. unfold Py.seq at 1. rewrite print_printing.
  unfold with_connect. rewrite Hc.
  unfold Py.seq at 1. unfold conn_execute. rewrite He.
  unfold Py.seq at 1. unfold keys, fetchall.
  rewrite (for_each_print_end_sep
             (fun k => PyStr.ljust 20 (PyStr.upper k)) " ").
  unfold Py.seq at 1. rewrite print_printing, for_each_fetch_rows.
  unfold fetch_entries, with_stdout, printing, checkin, checkout, sent. simpl.
  now rewrite <- !app_assoc.
Qed.

Lemma fetch_data_cell_prints_every_field_witness :
  let ks := ["id"; "username"; "password"; "server_id"] in
  let tr :=
    mkTransport (Returned tt) (Returned tt)
      (fun _ _ =>
         Returned (mkResultSet ks
                     [[VInt 3; VStr "Åsa"; VStr "8p6mnZqeSQ"; VInt 1];
                      [VInt 7; VStr "Petra"; VNull; VInt 2]])) in
  tr_connect tr = Returned tt
  /\ Forall (fun k => PyStr.is_ascii k = true) ks
  /\ text_of (Demo2.fetch_data_cell tr "q" "p" ∅ world0).2.(stdout)
     = "q

p

ID                   USERNAME             PASSWORD             SERVER_ID            
3                    Åsa                  8p6mnZqeSQ           1                    
7                    Petra                None                 2                    
".
Proof.
  intros ks tr.
  assert (Hks : Forall (fun k => PyStr.is_ascii k = true) ks)
    by (repeat constructor).
  split; [reflexivity|]. split; [exact Hks|].
  rewrite (fetch_data_cell_prints_every_field tr "q" "p" ∅ _ world0 tt
             eq_refl eq_refl Hks).
  vm_compute. reflexivity.
Defined.






(** [ljust] pads and never cuts. *)
Lemma ljust_long (w : nat) (s : string) :
  w <= PyStr.len s -> PyStr.ljust w s = s.
Proof.
  intros H. unfold PyStr.ljust.
  replace (w - PyStr.len s) with 0 by lia. apply append_empty_r.
Qed.



(** ** Cell 7 *)

Lemma getattr_missing (ks : list string) (row : list value) (name : string) :
  name ∉ ks -> getattr ks row name = Raised (attribute_error name).
Proof.
  revert row. induction ks as [|k ks IH]; intros row Hn; [reflexivity|].
  destruct row as [|v row]; [reflexivity|]. simpl.
  apply not_elem_of_cons in Hn as [Hne Hn].
  destruct (String.eqb_spec k name) as [->|_]; [congruence|].
  now apply IH.
Qed.

Lemma for_each_name_lines (rs : list (value * value * value * value))
    (w : world) :
  Py.for_each (map query_row rs)
    (fun row =>
       let! first :=
         Py.call (getattr ["Id"; "FirstName"; "LastName"; "Email"] row
                    "FirstName") in
       let! last :=
         Py.call (getattr ["Id"; "FirstName"; "LastName"; "Email"] row
                    "LastName") in
       Py.print (str first +:+ " " +:+ str last)) w
  = (Returned tt, with_stdout w (stdout w ++ map name_line rs)).
Proof.
  revert w. induction rs as [|[[[i f] l] e] rs IH]; intros w.
  - simpl. unfold Py.ret, with_stdout. now rewrite app_nil_r, world_eta.
  - simpl map. simpl Py.for_each. unfold Py.seq at 1.
    change (Py.seq _ _ w) with
      (Py.print (str f +:+ " " +:+ str l) w).
    rewrite print_printing, IH. unfold with_stdout, printing. simpl.
    now rewrite <- app_assoc.
Qed.

(** X7.  Cell 7 prints one line per row of the result of [query], the
    first name, a blank and the last name, in the order of the rows, and
    gives the connection back. *)
Theorem iterate_cell_prints_names (tr : Transport)
    (rs : list (value * value * value * value)) (w : world) u :
  tr_connect tr = Returned u ->
  tr_execute tr SQLAlchemyDemo.query ∅
    = Returned (mkResultSet ["Id"; "FirstName"; "LastName"; "Email"]
                  (map query_row rs)) ->
  SQLAlchemyDemo.iterate_cell tr w
  = (Returned tt,
     mkWorld (stdout w ++ map name_line rs)
             (S (acquired w)) (S (released w))
             (wire w ++ [(SQLAlchemyDemo.query, ∅)])).
Proof.
  intros Hc He.
  unfold SQLAlchemyDemo.iterate_cell, with_connect. rewrite Hc.
  unfold Py.seq at 1. unfold conn_execute. rewrite He.
  unfold keys, fetchall. simpl rs_keys. simpl rs_rows.
  rewrite for_each_name_lines. reflexivity.
Qed.

Lemma iterate_cell_prints_names_witness :
  let rs := [(VStr "741109-2058", VStr "Alexander", VStr "Dahl",
              VStr "alexander.dahl@telia.se");
             (VStr "530720-7675", VStr "Alvin", VStr "Lindholm",
              VStr "alvin.lindholm@gmail.com")] in
  let tr :=
    mkTransport (Returned tt) (Returned tt)
      (fun _ _ =>
         Returned (mkResultSet ["Id"; "FirstName"; "LastName"; "Email"]
                     (map query_row rs))) in
  tr_connect tr = Returned tt
  /\ text_of (SQLAlchemyDemo.iterate_cell tr world0).2.(stdout)
     = "Alexander Dahl
Alvin Lindholm
".
Proof.
  intros rs tr. split; [reflexivity|].
  rewrite (iterate_cell_prints_names tr rs world0 tt eq_refl eq_refl).
  reflexivity.
Defined.

(** X8.  When the result has no column [FirstName], cell 7 fails only if
    there is a row to print: on an empty result it returns without
    printing, on any other it raises [AttributeError] at the first row,
    before printing anything.  The connection is given back in both
    cases. *)
Theorem iterate_cell_missing_column (tr : Transport) (ks : list string)
    (rows : list (list value)) (w : world) u :
  tr_connect tr = Returned u ->
  tr_execute tr SQLAlchemyDemo.query ∅ = Returned (mkResultSet ks rows) ->
  "FirstName" ∉ ks ->
  SQLAlchemyDemo.iterate_cell tr w
  = (match rows with
     | [] => Returned tt
     | _ :: _ => Raised (attribute_error "FirstName")
     end,
     checkin (sent SQLAlchemyDemo.query ∅ (checkout w))).
Proof.
  intros Hc He Hn.
  unfold SQLAlchemyDemo.iterate_cell, with_connect. rewrite Hc.
  unfold Py.seq at 1. unfold conn_execute. rewrite He.
  unfold keys, fetchall. simpl rs_keys. simpl rs_rows.
  destruct rows as [|row rows]; [reflexivity|].
  simpl Py.for_each. unfold Py.seq at 1. unfold Py.seq at 1.
  unfold Py.call. rewrite (getattr_missing ks row "FirstName" Hn).
  reflexivity.
Qed.

Lemma iterate_cell_missing_column_witness :
  let tr :=
    mkTransport (Returned tt) (Returned tt)
      (fun _ _ => Returned (mkResultSet ["Id"; "Email"]
                              [[VStr "741109-2058"; VStr "a@b"]])) in
  tr_connect tr = Returned tt
  /\ ("FirstName" ∉ ["Id"; "Email"])
  /\ SQLAlchemyDemo.iterate_cell tr world0
     = (Raised (attribute_error "FirstName"),
        checkin (sent SQLAlchemyDemo.query ∅ (checkout world0))).
Proof.
  intros tr.
  assert (Hn : "FirstName" ∉ ["Id"; "Email"]).
  { rewrite !not_elem_of_cons. repeat split; try discriminate.
    apply not_elem_of_nil. }
  split; [reflexivity|]. split; [exact Hn|].
  apply (iterate_cell_missing_column tr ["Id"; "Email"] _ world0 tt
           eq_refl eq_refl Hn).
Defined.

(** ** The airport search *)

Lemma print_airports_lines (rs : list (value * value * value)) (w : world) :
  SQLAlchemyDemo.print_airports
    (mkResultSet ["IATA"; "name"; "location"] (map airport_row rs)) w
  = (Returned tt,
     with_stdout w (stdout w ++ airport_header :: map airport_line rs)).
Proof.
  unfold SQLAlchemyDemo.print_airports. unfold Py.seq at 1.
  rewrite print_printing. unfold keys, fetchall. simpl rs_keys. simpl rs_rows.
  assert (H : forall w0,
             Py.for_each (map airport_row rs)
               (fun airport =>
                  let! iata :=
                    Py.call (getattr ["IATA"; "name"; "location"] airport
                               "IATA") in
                  let! name :=
                    Py.call (getattr ["IATA"; "name"; "location"] airport
                               "name") in
                  let! location :=
                    Py.call (getattr ["IATA"; "name"; "location"] airport
                               "location") in
                  Py.print (PyStr.ljust 8 (str iata) +:+
                            PyStr.ljust 50 (str name) +:+ str location)) w0
             = (Returned tt,
                with_stdout w0 (stdout w0 ++ map airport_line rs))).
  { induction rs as [|[[i n] l] rs IH]; intros w0.
    - simpl. unfold Py.ret, with_stdout. now rewrite app_nil_r, world_eta.
    - simpl map. simpl Py.for_each. unfold Py.seq at 1.
      change (Py.seq _ _ w0) with
        (Py.print (PyStr.ljust 8 (str i) +:+ PyStr.ljust 50 (str n)
                   +:+ str l) w0).
      rewrite print_printing, IH. unfold with_stdout, printing. simpl.
      now rewrite <- app_assoc. }
  rewrite H. unfold with_stdout, printing, airport_header. simpl.
  now rewrite <- app_assoc.
Qed.

(** X9.  The safe airport search prints the search string, the heading,
    one line per airport found in the order of the result (code padded to
    8, name padded to 50, then the location) and at the end the statement
    text, which is the template and does not show the search string.  With
    no airport found, only the heading stands between the two. *)
Theorem safe_cell_prints_airports (tr : Transport) (search_string : string)
    (rs : list (value * value * value)) (w : world) u :
  tr_connect tr = Returned u ->
  tr_execute tr SQLAlchemyDemo.safe_query
    {[ "search_string" := VStr search_string ]}
    = Returned (mkResultSet ["IATA"; "name"; "location"]
                  (map airport_row rs)) ->
  SQLAlchemyDemo.safe_cell tr search_string w
  = (Returned tt,
     mkWorld
       (stdout w
        ++ [Text (("Search string: " +:+ search_string +:+ PyStr.nl)
                  +:+ PyStr.nl)]
        ++ airport_header :: map airport_line rs
        ++ [Text ((SQLAlchemyDemo.safe_query +:+ " " +:+ PyStr.nl)
                  +:+ PyStr.nl)])
       (S (acquired w)) (S (released w))
       (wire w ++ [(SQLAlchemyDemo.safe_query,
                    {[ "search_string" := VStr search_string ]})])).
Proof.
  intros Hc He.
  unfold SQLAlchemyDemo.safe_cell. unfold Py.seq at 1. rewrite print_printing.
  unfold with_connect. rewrite Hc.
  unfold Py.seq at 1. unfold conn_execute. rewrite He.
  unfold Py.seq at 1. rewrite print_airports_lines, print_printing.
  unfold with_stdout, printing, checkin, checkout, sent. simpl.
  rewrite <- !app_assoc. simpl. reflexivity.
Qed.

Lemma safe_cell_prints_airports_witness :
  let tr :=
    mkTransport (Returned tt) (Returned tt)
      (fun _ _ =>
         Returned (mkResultSet ["IATA"; "name"; "location"]
                     (map airport_row recorded_airports))) in
  tr_connect tr = Returned tt
  /\ text_of (SQLAlchemyDemo.safe_cell tr "stock" world0).2.(stdout)
     = "Search string: stock

IATA    Airport name                                      Location
ARN     Stockholm Arlanda Airport                         Stockholm, Sweden
BMA     Stockholm Bromma Airport                          Stockholm, Sweden
FST     Fort Stockton–Pecos County Airport                Fort Stockton, Texas, United States
NYO     Stockholm Skavsta Airport                         Stockholm / Nyköping, Sweden
RLG     Rostock–Laage Airport                             Rostock, Mecklenburg-Vorpommern, Germany
SCK     Stockton Metropolitan Airport                     Stockton, California, United States
SMP     Stockholm Airport[1]                              Stockholm, Papua New Guinea
STO     metropolitan area6                                Stockholm, Sweden
VST     Stockholm Västerås Airport                        Stockholm / Västerås, Sweden
select top 10 IATA, [Airport name] as 'name', [Location served] as 'location' from airports where [Location served] like '%' + :search_string + '%' 

".
Proof.
  intros tr. split; [reflexivity|].
  rewrite (safe_cell_prints_airports tr "stock" recorded_airports world0 tt
             eq_refl eq_refl).
  vm_compute. reflexivity.
Defined.

(** ** The search loop *)

Lemma seq_raised {A B} (m : Py A) (k : A -> Py B) (w : world) (e : exn) :
  (Py.seq m k w).1 = Raised e ->
  (m w).1 = Raised e
  \/ exists a w', m w = (Returned a, w') /\ (k a w').1 = Raised e.
Proof.
  unfold Py.seq. destruct (m w) as [[a|e'] w'] eqn:Hm; simpl; intros H.
  - right. exists a, w'. split; [reflexivity | exact H].
  - left. now inversion H.
Qed.

Lemma for_each_raised {A} (xs : list A) (body : A -> Py unit) (w : world)
    (e : exn) :
  (Py.for_each xs body w).1 = Raised e ->
  exists x w', In x xs /\ (body x w').1 = Raised e.
Proof.
  revert w. induction xs as [|x xs IH]; intros w; simpl.
  - discriminate.
  - intros H. apply seq_raised in H as [H | (a & w' & _ & H)].
    + exists x, w. auto.
    + destruct (IH w' H) as (y & w'' & Hin & Hy). exists y, w''. auto.
Qed.

Lemma print_never_raises (s : string) (w : world) (e : exn) :
  (Py.print s w).1 = Raised e -> False.
Proof. discriminate. Qed.

Lemma print_inventory_raised (session : Lab2.Session) (i : Lab2.Inventory)
    (w : world) (e : exn) :
  well_behaved session ->
  (Lab2.print_inventory session i w).1 = Raised e ->
  exn_is_Exception e = true.
Proof.
  intros (_ & _ & Hs) H. unfold Lab2.print_inventory in H.
  apply seq_raised in H as [H | (st & w' & Hcall & H)].
  - unfold Py.call in H. simpl in H. now apply (Hs i).
  - destruct st as [st|].
    + now apply print_never_raises in H.
    + unfold Py.raise in H. simpl in H. now inversion H.
Qed.

Lemma print_book_raised (session : Lab2.Session) (b : Lab2.Book)
    (w : world) (e : exn) :
  well_behaved session ->
  (Lab2.print_book session b w).1 = Raised e ->
  exn_is_Exception e = true.
Proof.
  intros Hwb H. unfold Lab2.print_book in H.
  apply seq_raised in H as [H | (a & w1 & _ & H)];
    [now apply print_never_raises in H|].
  apply seq_raised in H as [H | (a' & w2 & _ & H)];
    [now apply print_never_raises in H|].
  apply seq_raised in H as [H | (a'' & w3 & _ & H)];
    [|now apply print_never_raises in H].
  apply seq_raised in H as [H | (invs & w4 & _ & H)].
  - destruct Hwb as (_ & Hb & _). unfold Py.call in H. simpl in H.
    now apply (Hb b).
  - apply for_each_raised in H as (i & w5 & _ & H).
    now apply (print_inventory_raised session i w5).
Qed.

Lemma search_books_try_raised (session : Lab2.Session) (s : string)
    (w : world) (e : exn) :
  well_behaved session ->
  (Lab2.search_books_try session s w).1 = Raised e ->
  exn_is_Exception e = true.
Proof.
  intros Hwb H. unfold Lab2.search_books_try in H.
  apply seq_raised in H as [H | (bs & w1 & _ & H)].
  - destruct Hwb as (Hq & _). unfold Py.call in H. simpl in H.
    now apply (Hq (Lab2.search_pattern s)).
  - destruct bs as [|b bs]; [now apply print_never_raises in H|].
    apply for_each_raised in H as (b' & w2 & _ & H).
    now apply (print_book_raised session b' w2).
Qed.

Lemma search_books_returns (session : Lab2.Session) (s : string) (w : world) :
  well_behaved session -> (Lab2.search_books session s w).1 = Returned tt.
Proof.
  intros Hwb. unfold Lab2.search_books, Py.try_except_Exception.
  destruct (Lab2.search_books_try session s w) as [[[]|e] w'] eqn:Hbody;
    [reflexivity|].
  rewrite (search_books_try_raised session s w e Hwb)
    by (now rewrite Hbody).
  reflexivity.
Qed.

Lemma for_each_returns {A} (xs : list A) (body : A -> Py unit) (w : world) :
  (forall x w', (body x w').1 = Returned tt) ->
  (Py.for_each xs body w).1 = Returned tt.
Proof.
  intros Hb. revert w. induction xs as [|x xs IH]; intros w; simpl.
  - reflexivity.
  - unfold Py.seq. specialize (Hb x w).
    destruct (body x w) as [[[]|e] w']; simpl in Hb; [apply IH | discriminate].
Qed.

(** X10.  The search loop runs [search_books] on the lines typed before
    the first line that reads [exit] in any mixture of capitals and small
    letters, in their order, and then ends; nothing typed after that line
    is read. *)
Theorem main_loop_stops_at_exit (session : Lab2.Session)
    (before : list string) (x : string) (after : list string) (w : world) :
  Forall (fun s => PyStr.lower s <> "exit") before ->
  PyStr.lower x = "exit" ->
  Lab2.main_loop session (before ++ x :: after) w
  = Py.for_each before (Lab2.search_books session) w.
Proof.
  intros Hb Hx. revert w. induction Hb as [|s before Hs _ IH]; intros w.
  - simpl. now rewrite Hx.
  - simpl. apply String.eqb_neq in Hs. rewrite Hs.
    unfold Py.seq. destruct (Lab2.search_books session s w) as [[a|e] w'];
      [apply IH | reflexivity].
Qed.

Lemma main_loop_stops_at_exit_witness :
  Forall (fun s => PyStr.lower s <> "exit") ["secret"; "exit now"]
  /\ PyStr.lower "EXIT" = "exit"
  /\ Lab2.main_loop Lab2Data.session
       (["secret"; "exit now"] ++ "EXIT" :: ["garden"]) world0
     = Py.for_each ["secret"; "exit now"]
         (Lab2.search_books Lab2Data.session) world0.
Proof.
  assert (H : Forall (fun s => PyStr.lower s <> "exit") ["secret"; "exit now"])
    by (repeat constructor; discriminate).
  split; [exact H|]. split; [reflexivity|].
  apply (main_loop_stops_at_exit Lab2Data.session ["secret"; "exit now"]
           "EXIT" ["garden"] world0 H).
  reflexivity.
Defined.

(** X11.  With a session that raises nothing but exceptions deriving
    from [Exception], a failing search never ends the loop: every search
    returns, and the loop itself returns as soon as [exit] is typed. *)
Theorem main_loop_survives_failures (session : Lab2.Session)
    (before : list string) (x : string) (after : list string) (w : world) :
  well_behaved session ->
  PyStr.lower x = "exit" ->
  (forall s w', (Lab2.search_books session s w').1 = Returned tt)
  /\ (Lab2.main_loop session (before ++ x :: after) w).1 = Returned tt.
Proof.
  intros Hwb Hx.
  assert (Hs : forall s w', (Lab2.search_books session s w').1 = Returned tt)
    by (intros s w'; now apply search_books_returns).
  split; [exact Hs|].
  revert w. induction before as [|s before IH]; intros w; simpl.
  - now rewrite Hx.
  - destruct (String.eqb (PyStr.lower s) "exit"); [reflexivity|].
    unfold Py.seq. specialize (Hs s w).
    destruct (Lab2.search_books session s w) as [[[]|e] w'];
      simpl in Hs; [apply IH | discriminate].
Qed.

Lemma offline_well_behaved : well_behaved offline.
Proof.
  repeat split; intros a e H; simpl in H; now inversion H.
Qed.

Lemma main_loop_survives_failures_witness :
  well_behaved offline
  /\ PyStr.lower "exit" = "exit"
  /\ Lab2.main_loop offline (["secret"; "garden"] ++ "exit" :: []) world0
     = (Returned tt,
        printing ("An error occurred: " +:+ exn_str login_timeout)
          (printing ("An error occurred: " +:+ exn_str login_timeout)
             world0)).
Proof.
  split; [exact offline_well_behaved|]. split; [reflexivity|].
  pose proof (proj2 (main_loop_survives_failures offline ["secret"; "garden"]
                       "exit" [] world0 offline_well_behaved eq_refl)) as H.
  destruct (Lab2.main_loop offline (["secret"; "garden"] ++ ["exit"]) world0)
    as [o w'] eqn:Heq.
  simpl in H. subst o. f_equal.
  vm_compute in Heq. now inversion Heq.
Defined.

(** ** What search_books prints *)

(** X12.  When the query finds books and every lookup of stock and store
    succeeds, [search_books] returns after printing, for each book found
    and in the order found, the title line, the line [Stores and
    availability:], one line per stock row with the store name and the
    amount, and an empty line; it prints nothing else. *)
Theorem search_books_lists_books (session : Lab2.Session) (s : string)
    (bs : list Lab2.Book) (stock : Lab2.Book -> list Lab2.Inventory)
    (store : Lab2.Inventory -> Lab2.Store) (w : world) :
  Lab2.search_results session s = Returned bs ->
  bs <> [] ->
  (forall b, In b bs -> Lab2.Book_inventory session b = Returned (stock b)) ->
  (forall b i, In b bs -> In i (stock b) ->
               Lab2.Inventory_store session i = Returned (Some (store i))) ->
  Lab2.search_books session s w
  = (Returned tt,
     with_stdout w (stdout w ++ flat_map (book_entries stock store) bs)).
Proof.
  intros Hres Hne Hb Hst. unfold Lab2.search_books.
  apply try_except_returned.
  unfold Lab2.search_books_try. unfold Py.seq at 1. unfold Py.call.
  rewrite Hres. destruct bs as [|b bs]; [congruence|].
  now apply for_each_books.
Qed.

Lemma search_books_lists_books_witness :
  let stock := fun b : Lab2.Book =>
    List.filter
      (fun i => bool_decide (Lab2.Inventory_ISBN13 i = Lab2.Book_ISBN13 b))
      Lab2Data.inventories in
  let store := fun i : Lab2.Inventory =>
    default (Lab2.mkStore VNull VNull VNull)
      (find (fun s => bool_decide (Lab2.Store_ID s = Lab2.Inventory_StoreID i))
            Lab2Data.stores) in
  Lab2.search_results Lab2Data.session "secret" = Returned Lab2Data.books
  /\ Lab2Data.books <> []
  /\ Lab2.search_books Lab2Data.session "secret" world0
     = (Returned tt,
        with_stdout world0
          (stdout world0 ++ flat_map (book_entries stock store) Lab2Data.books)).
Proof.
  intros stock store.
  assert (Hres : Lab2.search_results Lab2Data.session "secret"
                 = Returned Lab2Data.books) by (vm_compute; reflexivity).
  assert (Hne : Lab2Data.books <> []) by discriminate.
  split; [exact Hres|]. split; [exact Hne|].
  apply (search_books_lists_books Lab2Data.session "secret" Lab2Data.books
           stock store world0 Hres Hne).
  - intros b Hb. reflexivity.
  - intros b i Hb Hi.
    simpl in Hb. destruct Hb as [<-|[<-|[]]];
      vm_compute in Hi;
      repeat (destruct Hi as [<-|Hi]; [vm_compute; reflexivity|]);
      destruct Hi.
Defined.

(** X13.  The [try] encloses the whole listing.  When the stock of one
    book cannot be loaded, [search_books] has printed the books before it
    and the first two lines of that book; it then prints the error message
    and returns: no book after the failing one is listed. *)
Theorem search_books_stops_at_failing_book (session : Lab2.Session)
    (s : string) (bs1 : list Lab2.Book) (b : Lab2.Book)
    (bs2 : list Lab2.Book) (stock : Lab2.Book -> list Lab2.Inventory)
    (store : Lab2.Inventory -> Lab2.Store) (e : exn) (w : world) :
  Lab2.search_results session s = Returned (bs1 ++ b :: bs2) ->
  (forall b', In b' bs1 ->
              Lab2.Book_inventory session b' = Returned (stock b')) ->
  (forall b' i, In b' bs1 -> In i (stock b') ->
                Lab2.Inventory_store session i = Returned (Some (store i))) ->
  Lab2.Book_inventory session b = Raised e ->
  exn_is_Exception e = true ->
  Lab2.search_books session s w
  = (Returned tt,
     with_stdout w
       (stdout w
        ++ flat_map (book_entries stock store) bs1
        ++ [title_line b; stores_line;
            Text (("An error occurred: " +:+ exn_str e) +:+ PyStr.nl)])).
Proof.
  intros Hres Hb Hst Hfail He. unfold Lab2.search_books.
  assert (Hbody :
            Lab2.search_books_try session s w
            = (Raised e,
               with_stdout w
                 (stdout w ++ flat_map (book_entries stock store) bs1
                  ++ [title_line b; stores_line]))).
  { unfold Lab2.search_books_try. unfold Py.seq at 1. unfold Py.call.
    rewrite Hres.
    assert (Hloop :
              Py.for_each (bs1 ++ b :: bs2) (Lab2.print_book session) w
              = (Raised e,
                 with_stdout w
                   (stdout w ++ flat_map (book_entries stock store) bs1
                    ++ [title_line b; stores_line]))).
    { rewrite for_each_app. unfold Py.seq at 1.
      rewrite (for_each_books session stock store bs1 w Hb Hst).
      simpl Py.for_each. unfold Py.seq at 1.
      unfold Lab2.print_book at 1.
      unfold Py.seq at 1. rewrite print_printing.
      unfold Py.seq at 1. rewrite print_printing.
      unfold Py.seq at 1. unfold Py.seq at 1. unfold Py.call. rewrite Hfail.
      unfold with_stdout, printing, title_line, stores_line. simpl.
      now rewrite <- !app_assoc. }
    destruct bs1 as [|b1 bs1]; exact Hloop. }
  rewrite (try_except_caught _ _ _ _ _ Hbody He).
  unfold Lab2.search_books_except. rewrite print_printing.
  unfold with_stdout, printing. simpl. now rewrite <- !app_assoc.
Qed.

Lemma search_books_stops_at_failing_book_witness :
  let b := Lab2.mkBook (VStr "978-0-316-76948-0") (VStr "The Secret Garden")
                       VNull in
  let session :=
    Lab2.mkSession (fun _ => Returned [b; b])
                   (fun _ => Raised login_timeout)
                   (fun _ => Returned None) in
  exn_is_Exception login_timeout = true
  /\ Lab2.search_books session "secret" world0
     = (Returned tt,
        with_stdout world0
          ([title_line b; stores_line;
            Text (("An error occurred: " +:+ exn_str login_timeout)
                  +:+ PyStr.nl)])).
Proof.
  intros b session. split; [reflexivity|].
  apply (search_books_stops_at_failing_book session "secret" [] b [b]
           (fun _ => []) (fun _ => Lab2.mkStore VNull VNull VNull)
           login_timeout world0).
  - reflexivity.
  - intros b' [].
  - intros b' i [].
  - reflexivity.
  - reflexivity.
Defined.

(** ** The generated password *)

Lemma alphabet_is_alnum (n : nat) :
  n < 62 ->
  is_alnum
    match String.get n (Demo2.ascii_letters +:+ Demo2.digits) with
    | Some c => c
    | None => "000"%char
    end = true.
Proof.
  intros Hn.
  do 62 (destruct n as [|n]; [reflexivity|]). lia.
Qed.

Lemma random_choice_alnum (r : nat) :
  is_alnum (Demo2.random_choice r (Demo2.ascii_letters +:+ Demo2.digits))
  = true.
Proof.
  unfold Demo2.random_choice.
  change (String.length (Demo2.ascii_letters +:+ Demo2.digits)) with 62.
  apply alphabet_is_alnum. apply Nat.mod_upper_bound. discriminate.
Qed.

Lemma join_length (cs : list ascii) : String.length (Demo2.join cs) = length cs.
Proof. induction cs as [|c cs IH]; simpl; [reflexivity | now rewrite IH]. Qed.

Lemma join_all_chars (f : ascii -> bool) (cs : list ascii) :
  Forall (fun c => f c = true) cs -> all_chars f (Demo2.join cs) = true.
Proof.
  induction 1 as [|c cs Hc _ IH]; simpl; [reflexivity|].
  now rewrite Hc, IH.
Qed.

(** X16.  Whatever the random draws are, the password made for a new user
    has exactly ten characters and each of them is a letter or a digit; it
    holds no quote, blank or other punctuation. *)
Theorem password_is_ten_alphanumerics (draw : nat -> nat) :
  String.length (Demo2.password draw) = 10
  /\ all_chars is_alnum (Demo2.password draw) = true
  /\ quote_free (Demo2.password draw) = true.
Proof.
  assert (Hall : all_chars is_alnum (Demo2.password draw) = true).
  { unfold Demo2.password. apply join_all_chars.
    rewrite Forall_map. apply Forall_forall. intros i _.
    apply random_choice_alnum. }
  split; [|split; [exact Hall|]].
  - unfold Demo2.password. now rewrite join_length, length_map, length_seq.
  - revert Hall. generalize (Demo2.password draw) as p.
    induction p as [|c p IH]; simpl; [reflexivity|].
    intros H. apply andb_prop in H as [Hc Hp]. rewrite (IH Hp).
    rewrite andb_true_r. apply negb_true_iff.
    destruct (Ascii.eqb_spec c "'") as [->|_]; [discriminate Hc | reflexivity].
Qed.
